(** * simple_caching: the caching decorator of [simple_caching.py]

    A shallow embedding of the decorator [simple_caching] and of the
    [method_wrapper] closure it builds, together with the part of the
    Python 2 runtime the wrapper touches: dynamically typed values,
    exceptions, keyword dictionaries, [os.path], the file system, and
    the gzip/JSON cache files. *)

From Stdlib Require Import ZArith String Ascii List Bool Lia DecimalString.
From Stdlib Require Floats.PrimFloat Floats.FloatOps Floats.SpecFloat.
From stdpp Require Import base gmap strings.

Import ListNotations.
Local Open Scope string_scope.
Local Open Scope Z_scope.

(** ** Python values *)

Module Py.

(** The values that reach the wrapper: the primitives, the two Python 2
    string types, sequences, dictionaries with [str] keys (in iteration
    order) and plain instances given by their attributes.  A [str] is a
    string of bytes; a unicode string is a string of code points, of
    which the model has those below 256. *)
#[local] Unset Elimination Schemes.
Inductive pyval : Type :=
| VNone
| VBool (b : bool)
| VInt (n : Z)
| VFloat (f : PrimFloat.float)
| VStr (s : string)
| VUnicode (s : string)
| VList (items : list pyval)
| VTuple (items : list pyval)
| VDict (entries : list (string * pyval))
| VObj (attrs : list (string * pyval)).
#[local] Set Elimination Schemes.

(** What [type(x)] answers. *)
Inductive pytype : Type :=
| TNone | TBool | TInt | TFloat | TStr | TUnicode
| TList | TTuple | TDict | TInstance.

Definition pytype_eqb (a b : pytype) : bool :=
  match a, b with
  | TNone, TNone | TBool, TBool | TInt, TInt | TFloat, TFloat
  | TStr, TStr | TUnicode, TUnicode | TList, TList | TTuple, TTuple
  | TDict, TDict | TInstance, TInstance => true
  | _, _ => false
  end.

Definition type_of (v : pyval) : pytype :=
  match v with
  | VNone => TNone
  | VBool _ => TBool
  | VInt _ => TInt
  | VFloat _ => TFloat
  | VStr _ => TStr
  | VUnicode _ => TUnicode
  | VList _ => TList
  | VTuple _ => TTuple
  | VDict _ => TDict
  | VObj _ => TInstance
  end.

(** [t in (t1, ..., tn)] on types. *)
Definition type_in (t : pytype) (ts : list pytype) : bool :=
  existsb (pytype_eqb t) ts.

Definition is_nil {A} (l : list A) : bool :=
  match l with [] => true | _ => false end.

Definition str_empty (s : string) : bool :=
  match s with EmptyString => true | _ => false end.

(** Truth value testing, as [if x] and [not x] use it. *)
Definition truthy (v : pyval) : bool :=
  match v with
  | VNone => false
  | VBool b => b
  | VInt n => negb (n =? 0)
  | VFloat f => negb (PrimFloat.eqb f PrimFloat.zero)
  | VStr s | VUnicode s => negb (str_empty s)
  | VList l | VTuple l => negb (is_nil l)
  | VDict d => negb (is_nil d)
  | VObj _ => true
  end.

(** Exceptions the wrapper can meet.  [UserError] stands for whatever the
    wrapped method raises itself. *)
Inductive exn : Type :=
| IndexError
| AttributeError
| TypeError
| NameError (name : string)
| IOError
| ValueError
| UnicodeDecodeError
| SystemExit (code : Z)
| UserError (tag : string).

(** The outcome of evaluating an expression or a statement.  [Unmodelled]
    marks the few places where Python's answer depends on something the
    value model leaves out (the printed form of a float, a list, a
    dictionary or an instance; text beyond code point 255). *)
Inductive result (A : Type) : Type :=
| Ok (a : A)
| Raise (e : exn)
| Unmodelled.
Arguments Ok {A} a.
Arguments Raise {A} e.
Arguments Unmodelled {A}.

Definition rbind {A B} (r : result A) (k : A -> result B) : result B :=
  match r with
  | Ok a => k a
  | Raise e => Raise e
  | Unmodelled => Unmodelled
  end.

(** String-keyed dictionaries, in iteration order. *)
Definition dict := list (string * pyval).

Fixpoint dict_get (d : dict) (k : string) : option pyval :=
  match d with
  | [] => None
  | (k', v) :: d' => if String.eqb k k' then Some v else dict_get d' k
  end.

Definition dict_remove (d : dict) (k : string) : dict :=
  List.filter (fun kv => negb (String.eqb k (fst kv))) d.

(** [d.pop(k, default)]: the value and the dictionary that is left. *)
Definition dict_pop (d : dict) (k : string) (default : pyval) : pyval * dict :=
  match dict_get d k with
  | Some v => (v, dict_remove d k)
  | None => (default, d)
  end.

(** [args[i]] on the argument tuple, for a non-negative [i]. *)
Definition index (args : list pyval) (i : nat) : result pyval :=
  match nth_error args i with
  | Some v => Ok v
  | None => Raise IndexError
  end.

(** [v.name]: only instances carry attributes beyond the built-in ones. *)
Definition getattr (v : pyval) (name : string) : result pyval :=
  match v with
  | VObj attrs =>
      match dict_get attrs name with
      | Some x => Ok x
      | None => Raise AttributeError
      end
  | _ => Raise AttributeError
  end.

Definition as_text (v : pyval) : option string :=
  match v with
  | VStr s | VUnicode s => Some s
  | _ => None
  end.

(** A [str] holds ASCII text when every byte is below 128. *)
Definition ascii_byte (c : ascii) : bool := Nat.ltb (nat_of_ascii c) 128.

Fixpoint is_ascii (s : string) : bool :=
  match s with
  | EmptyString => true
  | String c rest => ascii_byte c && is_ascii rest
  end.

(** [sep.join(items)] for a [str] separator.  With [str] items only, the
    result is a [str].  At the first item that is not a [str] the join
    stops with [TypeError], unless that item is unicode: then
    [unicode.join] takes over from the start, decodes every [str] item
    as ASCII, and the first item it cannot take decides the exception. *)
Fixpoint first_not_str (items : list pyval) : option pyval :=
  match items with
  | [] => None
  | VStr _ :: rest => first_not_str rest
  | x :: _ => Some x
  end.

Definition texts (items : list pyval) : list string :=
  flat_map (fun v => match as_text v with Some s => [s] | None => [] end)
           items.

Fixpoint unicode_texts (items : list pyval) : result (list string) :=
  match items with
  | [] => Ok []
  | VUnicode s :: rest => rbind (unicode_texts rest) (fun ts => Ok (s :: ts))
  | VStr s :: rest =>
      if is_ascii s
      then rbind (unicode_texts rest) (fun ts => Ok (s :: ts))
      else Raise UnicodeDecodeError
  | _ => Raise TypeError
  end.

Definition str_join (sep : string) (items : list pyval) : result pyval :=
  match first_not_str items with
  | None => Ok (VStr (String.concat sep (texts items)))
  | Some (VUnicode _) =>
      rbind (unicode_texts items)
            (fun ts => Ok (VUnicode (String.concat sep ts)))
  | Some _ => Raise TypeError
  end.

Definition chars_of (mk : string -> pyval) (s : string) : list pyval :=
  map (fun c => mk (String c EmptyString)) (list_ascii_of_string s).

(** [a += b] where [b] is a string.  A [str] added to a unicode string
    is decoded as ASCII first. *)
Definition iadd (a b : pyval) : result pyval :=
  match a, b with
  | VStr s, VStr t => Ok (VStr (s ++ t))
  | VStr s, VUnicode t =>
      if is_ascii s then Ok (VUnicode (s ++ t)) else Raise UnicodeDecodeError
  | VUnicode s, VStr t =>
      if is_ascii t then Ok (VUnicode (s ++ t)) else Raise UnicodeDecodeError
  | VUnicode s, VUnicode t => Ok (VUnicode (s ++ t))
  | VList l, VStr t => Ok (VList (l ++ chars_of VStr t))
  | VList l, VUnicode t => Ok (VList (l ++ chars_of VUnicode t))
  | _, _ => Raise TypeError
  end%string.

(** [str(v)] where the value model determines it. *)
Definition py_str (v : pyval) : result string :=
  match v with
  | VNone => Ok "None"
  | VBool true => Ok "True"
  | VBool false => Ok "False"
  | VInt n => Ok (NilZero.string_of_int (Z.to_int n))
  | VStr s | VUnicode s => Ok s
  | VFloat _ | VList _ | VTuple _ | VDict _ | VObj _ => Unmodelled
  end.

(** ['..%s..' % v]: a tuple on the right is the argument tuple. *)
Definition format_s (v : pyval) : result string :=
  match v with
  | VTuple [x] => py_str x
  | VTuple _ => Raise TypeError
  | _ => py_str v
  end.

(** [string.punctuation], by character code. *)
Definition punctuation : list ascii :=
  map ascii_of_nat
      [33; 34; 35; 36; 37; 38; 39; 40; 41; 42; 43; 44; 45; 46; 47;
       58; 59; 60; 61; 62; 63; 64;
       91; 92; 93; 94; 95; 96;
       123; 124; 125; 126]%nat.

Definition in_punctuation (c : ascii) : bool :=
  existsb (Ascii.eqb c) punctuation.

End Py.

Import Py.

(** ** JSON documents and the cache file format *)

Module Json.

(** The document a cache file holds.  The model keeps the document and
    not its text: what [json.dump] writes and [json.loads] reads back is
    the same document. *)
#[local] Unset Elimination Schemes.
Inductive json : Type :=
| JNull
| JBool (b : bool)
| JNum (n : Z)
| JFloat (f : PrimFloat.float)
| JStr (s : string)
| JArr (items : list json)
| JObj (members : list (string * json)).
#[local] Set Elimination Schemes.

(** The shape [json.dump] gives a value: lists and tuples both become
    arrays, both string types become JSON strings, an instance has no
    shape ([None] stands for the [TypeError] of the encoder).  The bytes
    of a [str] are kept here as they are; [document] below decodes
    them. *)
Fixpoint encode (v : pyval) : option json :=
  match v with
  | VNone => Some JNull
  | VBool b => Some (JBool b)
  | VInt n => Some (JNum n)
  | VFloat f => Some (JFloat f)
  | VStr s | VUnicode s => Some (JStr s)
  | VList l | VTuple l => JArr <$> mapM encode l
  | VDict d => JObj <$> mapM (fun kv => pair (fst kv) <$> encode (snd kv)) d
  | VObj _ => None
  end.

(** The encoder decodes a [str] as UTF-8 before it writes it.  Bytes
    below 128 stand for themselves, the lead bytes C2 and C3 with one
    continuation byte give the code points 128 to 255, and a byte that
    cannot start a character (or a missing continuation) is a
    [UnicodeDecodeError].  The other lead bytes give text the model does
    not hold, or an error. *)
Definition continuation_byte (c : ascii) : bool :=
  Nat.leb 128 (nat_of_ascii c) && Nat.ltb (nat_of_ascii c) 192.

Fixpoint utf8_decode (s : string) : result string :=
  match s with
  | EmptyString => Ok EmptyString
  | String c rest =>
      let n := nat_of_ascii c in
      if Nat.ltb n 128 then
        rbind (utf8_decode rest) (fun t => Ok (String c t))
      else if Nat.eqb n 194 || Nat.eqb n 195 then
        match rest with
        | String c2 rest' =>
            if continuation_byte c2 then
              rbind (utf8_decode rest')
                    (fun t => Ok (String
                                    (ascii_of_nat
                                       ((n - 192) * 64 + (nat_of_ascii c2 - 128)))
                                    t))
            else Raise UnicodeDecodeError
        | EmptyString => Raise UnicodeDecodeError
        end
      else if Nat.ltb n 194 || Nat.leb 245 n then Raise UnicodeDecodeError
      else Unmodelled
  end.

(** A function applied to the items of a list, in order, up to the first
    that fails. *)
Fixpoint each {A B} (f : A -> result B) (l : list A) : result (list B) :=
  match l with
  | [] => Ok []
  | x :: rest =>
      rbind (f x) (fun y => rbind (each f rest) (fun ys => Ok (y :: ys)))
  end.

(** The document the encoder writes, part by part in the order of the
    value.  (A dictionary key that is not ASCII would be read back as a
    unicode key, which the value model does not have.) *)
Fixpoint document (v : pyval) : result json :=
  match v with
  | VNone => Ok JNull
  | VBool b => Ok (JBool b)
  | VInt n => Ok (JNum n)
  | VFloat f => Ok (JFloat f)
  | VStr s => rbind (utf8_decode s) (fun t => Ok (JStr t))
  | VUnicode s => Ok (JStr s)
  | VList l | VTuple l => rbind (each document l) (fun js => Ok (JArr js))
  | VDict d =>
      rbind (each (fun kv => if is_ascii (fst kv)
                             then rbind (document (snd kv))
                                        (fun j => Ok (fst kv, j))
                             else Unmodelled) d)
            (fun ms => Ok (JObj ms))
  | VObj _ => Raise TypeError
  end.

(** [json.dump(v, f)]: the document written, or the exception.  A value
    with an instance in it is reported as the encoder's [TypeError], also
    when the encoder would first stop on a [str] that is not UTF-8: which
    part of a dictionary it meets first is a matter of the hash table,
    which the value model does not have. *)
Definition json_dump (v : pyval) : result json :=
  match encode v with
  | None => Raise TypeError
  | Some _ => document v
  end.

(** [json.loads]: arrays come back as lists, strings as unicode. *)
Fixpoint decode (j : json) : pyval :=
  match j with
  | JNull => VNone
  | JBool b => VBool b
  | JNum n => VInt n
  | JFloat f => VFloat f
  | JStr s => VUnicode s
  | JArr l => VList (map decode l)
  | JObj m => VDict (map (fun kv => (fst kv, decode (snd kv))) m)
  end.

(** What a regular file can hold, as far as reading a cache goes. *)
Inductive filedata : Type :=
| GzJson (doc : json)   (* gzip stream whose text is a JSON document *)
| GzOther               (* gzip stream whose text is not one *)
| GzDamaged             (* gzip header, then a damaged stream *)
| NotGzip.              (* no gzip header *)

End Json.

Import Json.

(** ** Comparing a cached result with a computed one *)

Fixpoint all2 {A B} (f : A -> B -> bool) (xs : list A) (ys : list B) : bool :=
  match xs, ys with
  | [], [] => true
  | x :: xs', y :: ys' => f x y && all2 f xs' ys'
  | _, _ => false
  end.

Definition same_text (a b : string) : bool := String.eqb a b.

(** Numbers compare by value across [bool], [int] and [float]: [True]
    is 1, and an integer equals a float when the float is finite and has
    exactly that value. *)
Definition int_of_bool (b : bool) : Z := if b then 1%Z else 0%Z.

Definition int_eq_float (n : Z) (f : PrimFloat.float) : bool :=
  match FloatOps.Prim2SF f with
  | SpecFloat.S754_zero _ => (n =? 0)%Z
  | SpecFloat.S754_finite s m e =>
      let v := if s then Z.neg m else Z.pos m in
      if (0 <=? e)%Z then (n =? v * 2 ^ e)%Z else (n * 2 ^ (- e) =? v)%Z
  | SpecFloat.S754_infinity _ | SpecFloat.S754_nan => false
  end.

(** Deep equality of two results, as [==] decides it: the same shape
    with equal leaves.  A list is not a tuple.  A [str] equals a unicode
    string when it is ASCII and has the same text (a [str] with a byte
    above 127 equals no unicode string).  NaN equals nothing.
    Dictionaries (and instances) compare key by key, whatever the
    order. *)
Fixpoint deep_equal (a b : pyval) {struct a} : bool :=
  match a, b with
  | VNone, VNone => true
  | VBool x, VBool y => Bool.eqb x y
  | VInt x, VInt y => (x =? y)%Z
  | VFloat x, VFloat y => PrimFloat.eqb x y
  | VBool x, VInt y | VInt y, VBool x => (int_of_bool x =? y)%Z
  | VBool x, VFloat y | VFloat y, VBool x => int_eq_float (int_of_bool x) y
  | VInt x, VFloat y | VFloat y, VInt x => int_eq_float x y
  | VStr x, VStr y => same_text x y
  | VStr x, VUnicode y => is_ascii x && same_text x y
  | VUnicode x, VStr y => is_ascii y && same_text x y
  | VUnicode x, VUnicode y => same_text x y
  | VList xs, VList ys => all2 deep_equal xs ys
  | VTuple xs, VTuple ys => all2 deep_equal xs ys
  | VDict d1, VDict d2 =>
      Nat.eqb (length d1) (length d2)
      && forallb (fun kv => match dict_get d2 (fst kv) with
                            | Some v' => deep_equal (snd kv) v'
                            | None => false
                            end) d1
  | VObj d1, VObj d2 =>
      Nat.eqb (length d1) (length d2)
      && forallb (fun kv => match dict_get d2 (fst kv) with
                            | Some v' => deep_equal (snd kv) v'
                            | None => false
                            end) d1
  | _, _ => false
  end.




(** ** The process and its file system *)

Module Os.

(** [posixpath.join] of two components. *)
Definition starts_with_slash (s : string) : bool :=
  match s with
  | String c _ => Ascii.eqb c "/"
  | EmptyString => false
  end.

Fixpoint ends_with_slash (s : string) : bool :=
  match s with
  | EmptyString => false
  | String c EmptyString => Ascii.eqb c "/"
  | String _ s' => ends_with_slash s'
  end.

Definition path_join (a b : string) : string :=
  if starts_with_slash b then b
  else if str_empty a || ends_with_slash a then a ++ b
  else a ++ "/" ++ b.

(** [posixpath.dirname], on the reversed character list: cut after the
    last slash, then drop trailing slashes unless only slashes are left. *)
Fixpoint drop_to_slash (r : list ascii) : list ascii :=
  match r with
  | [] => []
  | c :: r' => if Ascii.eqb c "/" then r else drop_to_slash r'
  end.

Fixpoint drop_slashes (r : list ascii) : list ascii :=
  match r with
  | [] => []
  | c :: r' => if Ascii.eqb c "/" then drop_slashes r' else r
  end.

Definition dirname (p : string) : string :=
  let head := drop_to_slash (rev (list_ascii_of_string p)) in
  match drop_slashes head with
  | [] => string_of_list_ascii (rev head)
  | stripped => string_of_list_ascii (rev stripped)
  end.

(** The state a call can observe or change: the working directory, the
    directories and regular files by the path that names them, the two
    output streams, the log of the calls made to the wrapped method and
    that method's own state (of type [S]).  Paths are looked up as they
    are spelled: a world is meant to list a file or directory under
    every spelling that reaches it, the relative ones included. *)
Record world (S : Type) : Type := World {
  cwd : string;
  dirs : gset string;
  files : gmap string filedata;
  stdout : list string;
  stderr : list string;
  calls : list (list pyval * dict);
  mstate : S
}.
Arguments World {S}.
Arguments cwd {S}.
Arguments dirs {S}.
Arguments files {S}.
Arguments stdout {S}.
Arguments stderr {S}.
Arguments calls {S}.
Arguments mstate {S}.

Section Process.
Context {S : Type}.
Implicit Type w : world S.

(** [os.path.exists] on a path string. *)
Definition path_exists w (p : string) : bool :=
  match files w !! p with
  | Some _ => true
  | None => bool_decide (p ∈ dirs w)
  end.

(** [os.path.exists(v)]: anything but a string is a [TypeError]. *)
Definition os_path_exists w (v : pyval) : result bool :=
  match as_text v with
  | Some p => Ok (path_exists w p)
  | None => Raise TypeError
  end.

(** Whether [gzip.open(p, mode='w')] can create or truncate [p]: the
    directory part names a directory (the working directory when
    empty) and [p] itself is not one. *)
Definition parent_dir w (p : string) : string :=
  let d := dirname p in if str_empty d then cwd w else d.

Definition can_create w (p : string) : bool :=
  bool_decide (parent_dir w p ∈ dirs w) && negb (bool_decide (p ∈ dirs w)).

Definition with_file w (p : string) (d : filedata) : world S :=
  World (cwd w) (dirs w) (<[p := d]> (files w))
        (stdout w) (stderr w) (calls w) (mstate w).

Definition with_stdout w (line : string) : world S :=
  World (cwd w) (dirs w) (files w)
        (stdout w ++ [line]) (stderr w) (calls w) (mstate w).

Definition with_stderr w (line : string) : world S :=
  World (cwd w) (dirs w) (files w)
        (stdout w) (stderr w ++ [line]) (calls w) (mstate w).

Definition with_call w (c : list pyval * dict) (s : S) : world S :=
  World (cwd w) (dirs w) (files w)
        (stdout w) (stderr w) (calls w ++ [c]) s.

End Process.

End Os.

Import Os.

(** ** Statements: state and exceptions *)

(** A statement runs in a world and ends with a value, an exception or
    outside the model; the world it leaves is kept in every case. *)
Definition M (S A : Type) : Type := world S -> result A * world S.

Definition ret {S A} (a : A) : M S A := fun w => (Ok a, w).

Definition lift {S A} (r : result A) : M S A := fun w => (r, w).

Definition raise {S A} (e : exn) : M S A := fun w => (Raise e, w).

Definition bind {S A B} (m : M S A) (k : A -> M S B) : M S B :=
  fun w =>
    match m w with
    | (Ok a, w') => k a w'
    | (Raise e, w') => (Raise e, w')
    | (Unmodelled, w') => (Unmodelled, w')
    end.

Declare Scope stmt_scope.
Delimit Scope stmt_scope with stmt.
Notation "x <- m ;; k" := (bind m (fun x => k))
  (at level 100, m at next level, right associativity) : stmt_scope.
Notation "m ;;; k" := (bind m (fun _ => k))
  (at level 100, right associativity) : stmt_scope.

Declare Scope expr_scope.
Delimit Scope expr_scope with expr.
Notation "x <- r ;; k" := (rbind r (fun x => k))
  (at level 100, r at next level, right associativity) : expr_scope.

(** [try: body / except AttributeError: handler]. *)
Definition except_AttributeError {A} (body handler : result A) : result A :=
  match body with
  | Raise AttributeError => handler
  | other => other
  end.

(** ** The module and the wrapper *)

(** The names the module binds at top level: one per import statement,
    in order, and the decorator itself. *)
Definition module_globals : list string :=
  ["codecs"; "json"; "os"; "wraps"; "gzip"; "syss"; "punctuation";
   "simple_caching"].

(** Reading a global name. *)
Definition load_global (name : string) : result unit :=
  if existsb (String.eqb name) module_globals then Ok tt
  else Raise (NameError name).

(** A function object: its [__name__] and what calling it does to its
    own state. *)
Record pyfunc (S : Type) : Type := PyFunc {
  __name__ : string;
  body : list pyval -> dict -> S -> result pyval * S
}.
Arguments PyFunc {S}.
Arguments __name__ {S}.
Arguments body {S}.

(** What [simple_caching(...)] leaves in the closure of the wrapper. *)
Record closure : Type := Closure {
  local_cachedir : pyval;
  local_cache_comment : pyval;
  local_autodetect : pyval
}.

Section Wrapper.
Context {S : Type}.
Implicit Type w : world S.

(** Calling [method] with the arguments, logged. *)
Definition call_method (method : pyfunc S) (args : list pyval)
    (kwargs : dict) : M S pyval :=
  fun w =>
    let (r, s') := body method args kwargs (mstate w) in
    (r, with_call w (args, kwargs) s').

(** [print line] and [print >> sys.stderr, line]. *)
Definition print (line : string) : M S unit :=
  fun w => (Ok tt, with_stdout w line).

Definition print_stderr (line : string) : M S unit :=
  fun w => (Ok tt, with_stderr w line).

Definition exists_ (p : pyval) : M S bool :=
  fun w => (os_path_exists w p, w).

Definition getcwd : M S string := fun w => (Ok (cwd w), w).

(** Lines 70-76: where the cache directory comes from. *)
Definition resolve_cachedir (c : closure) (args : list pyval)
    (kwargs : dict) : result (pyval * dict) :=
  if negb (truthy (local_cachedir c)) then
    except_AttributeError
      (a0 <- index args 0 ;;
       cachedir <- getattr a0 "cachedir" ;;
       Ok (cachedir, kwargs))%expr
      (Ok (dict_pop kwargs "cachedir" VNone))
  else
    Ok (local_cachedir c, kwargs).

(** Lines 83-86. *)
Definition resolve_cache_comment (c : closure) (kwargs : dict)
    : pyval * dict :=
  if negb (truthy (local_cache_comment c)) then
    dict_pop kwargs "cache_comment" (VStr "")
  else
    (local_cachedir c, kwargs).

(** Lines 88-91. *)
Definition resolve_autodetect (c : closure) (kwargs : dict)
    : pyval * dict :=
  if negb (truthy (local_autodetect c)) then
    dict_pop kwargs "autodetect" (VBool false)
  else
    (local_autodetect c, kwargs).

(** Lines 92-96.  The second comprehension runs over the keys [kwa] of
    [kwargs], tests [type(kwa)] and collects [kwargs[kwa]]. *)
Definition detect (autodetect cache_comment : pyval)
    (args : list pyval) (kwargs : dict) : result pyval :=
  if truthy autodetect then
    (j1 <- str_join "_"
             (List.filter (fun a => pytype_eqb (type_of a) TStr) args) ;;
     cache_comment <- iadd cache_comment j1 ;;
     j2 <- str_join "_"
             (map snd
                (List.filter (fun kv => type_in (type_of (VStr (fst kv)))
                                     [TFloat; TInt; TStr; TUnicode])
                        kwargs)) ;;
     iadd cache_comment j2)%expr
  else
    Ok cache_comment.

(** Lines 98-103.  Once [os.path.exists] has accepted it the directory
    is a string, and only its text is kept. *)
Definition text_of (v : pyval) : string :=
  match as_text v with Some s => s | None => "" end.

Definition validate_cachedir (cachedir : pyval) : M S string :=
  (e <- exists_ cachedir ;;
   if negb e then
     here <- getcwd ;;
     let cachedir := path_join here (text_of cachedir) in
     e' <- exists_ (VStr cachedir) ;;
     if negb e' then
       lift (load_global "sys") ;;;
       print_stderr ("[cache error] " ++ cachedir ++ " is not "
                     ++ "a valid dir.") ;;;
       lift (load_global "sys") ;;;
       raise (SystemExit 1)
     else ret cachedir
   else ret (text_of cachedir))%stmt.

(** Lines 113-114: [while cachename[0] in punctuation]. *)
Fixpoint strip_leading (cachename : string) : result string :=
  match cachename with
  | EmptyString => Raise IndexError
  | String c rest =>
      if in_punctuation c then strip_leading rest else Ok cachename
  end.

(** Lines 115-116: the same loop from the other end, run on the
    reversed string. *)
Definition reverse (s : string) : string :=
  string_of_list_ascii (rev (list_ascii_of_string s)).

Definition strip_trailing (cachename : string) : result string :=
  (r <- strip_leading (reverse cachename) ;; Ok (reverse r))%expr.

(** Lines 108-116. *)
Definition make_cachename (name : string) (cache_comment : pyval)
    : result string :=
  (suffix <- (if truthy cache_comment
              then (t <- format_s cache_comment ;; Ok ("_" ++ t))
              else Ok "") ;;
   let cachename := name ++ suffix ++ ".cache.gz" in
   cachename <- strip_leading cachename ;;
   strip_trailing cachename)%expr.

(** Lines 121-122: read the whole gzip stream and parse it.  What a
    damaged stream raises depends on the damage. *)
Definition gzip_json_load (cachepath : string) : M S pyval :=
  fun w =>
    match files w !! cachepath with
    | Some (GzJson doc) => (Ok (decode doc), w)
    | Some GzOther => (Raise ValueError, w)
    | Some GzDamaged => (Unmodelled, w)
    | Some NotGzip | None => (Raise IOError, w)
    end.

(** Lines 126-127: the file is created when it is opened, so an encoder
    error leaves a gzip file that holds no document. *)
Definition gzip_json_dump (cachepath : string) (tocache : pyval)
    : M S unit :=
  fun w =>
    if can_create w cachepath then
      match json_dump tocache with
      | Ok doc => (Ok tt, with_file w cachepath (GzJson doc))
      | Raise e => (Raise e, with_file w cachepath GzOther)
      | Unmodelled => (Unmodelled, with_file w cachepath GzOther)
      end
    else (Raise IOError, w).

(** Lines 120-128. *)
Definition load_or_compute (method : pyfunc S) (args : list pyval)
    (kwargs : dict) (cachepath : string) : M S pyval :=
  (e <- exists_ (VStr cachepath) ;;
   if e then gzip_json_load cachepath
   else
     print ("[cache] generating " ++ cachepath) ;;;
     tocache <- call_method method args kwargs ;;
     gzip_json_dump cachepath tocache ;;;
     ret tocache)%stmt.

(** The closure [method_wrapper] built by [caching_decorator(method)],
    applied to its positional and keyword arguments. *)
Definition method_wrapper (c : closure) (method : pyfunc S)
    (args : list pyval) (kwargs : dict) : M S pyval :=
  (resolved <- lift (resolve_cachedir c args kwargs) ;;
   let '(cachedir, kwargs) := resolved in
   if negb (truthy cachedir) then call_method method args kwargs
   else
     let '(cache_comment, kwargs) := resolve_cache_comment c kwargs in
     let '(autodetect, kwargs) := resolve_autodetect c kwargs in
     cache_comment <- lift (detect autodetect cache_comment args kwargs) ;;
     cachedir <- validate_cachedir cachedir ;;
     cachename <- lift (make_cachename (__name__ method) cache_comment) ;;
     let cachepath := path_join cachedir cachename in
     load_or_compute method args kwargs cachepath)%stmt.

(** Lines 70-117 on their own: what a call settles before it reads or
    computes anything.  Either caching is bypassed (line 81) or the
    cache path is known; in both cases [kwargs] is what is left for the
    method. *)
Inductive plan : Type :=
| Bypass (kwargs : dict)
| Cached (cachepath : string) (kwargs : dict).

Definition derive (c : closure) (name : string)
    (args : list pyval) (kwargs : dict) : M S plan :=
  (resolved <- lift (resolve_cachedir c args kwargs) ;;
   let '(cachedir, kwargs) := resolved in
   if negb (truthy cachedir) then ret (Bypass kwargs)
   else
     let '(cache_comment, kwargs) := resolve_cache_comment c kwargs in
     let '(autodetect, kwargs) := resolve_autodetect c kwargs in
     cache_comment <- lift (detect autodetect cache_comment args kwargs) ;;
     cachedir <- validate_cachedir cachedir ;;
     cachename <- lift (make_cachename name cache_comment) ;;
     ret (Cached (path_join cachedir cachename) kwargs))%stmt.

(** Line 81, or lines 120-128. *)
Definition carry_out (method : pyfunc S) (args : list pyval) (p : plan)
    : M S pyval :=
  match p with
  | Bypass kwargs => call_method method args kwargs
  | Cached cachepath kwargs => load_or_compute method args kwargs cachepath
  end.

(** What a derivation that ends on a cache path went through. *)
Definition cached_by (c : closure) (name : string) (args : list pyval)
    (kwargs : dict) (w : world S) (path : string) (kw : dict) : Prop :=
  exists cachedir kw0 comment dir cachename,
    resolve_cachedir c args kwargs = Ok (cachedir, kw0)
    /\ truthy cachedir = true
    /\ kw = snd (resolve_autodetect c (snd (resolve_cache_comment c kw0)))
    /\ detect (fst (resolve_autodetect c (snd (resolve_cache_comment c kw0))))
              (fst (resolve_cache_comment c kw0)) args kw
       = Ok comment
    /\ fst (validate_cachedir cachedir w) = Ok dir
    /\ make_cachename name comment = Ok cachename
    /\ path = path_join dir cachename.


Definition caching_decorator (c : closure) (method : pyfunc S)
    : list pyval -> dict -> M S pyval :=
  method_wrapper c method.

(** The decorator factory, with its three keyword parameters. *)
Definition simple_caching (cachedir cache_comment autodetect : pyval)
    : pyfunc S -> list pyval -> dict -> M S pyval :=
  caching_decorator (Closure cachedir cache_comment autodetect).

End Wrapper.

(** ** The cache file name as the specification words it

    The name, then an underscore and the comment when there is one; all
    leading and trailing punctuation stripped from that; then the suffix
    [.cache.gz]. *)

Fixpoint lstrip_punctuation (s : string) : string :=
  match s with
  | EmptyString => EmptyString
  | String c rest => if in_punctuation c then lstrip_punctuation rest else s
  end.

Definition strip_punctuation (s : string) : string :=
  reverse (lstrip_punctuation (reverse (lstrip_punctuation s))).

Definition spec_cache_file_name (name comment : string) : string :=
  strip_punctuation
    (name ++ (if str_empty comment then "" else "_" ++ comment))
  ++ ".cache.gz".

(** ** Induction on values

    A value nests lists of values, so the induction hypothesis has to
    reach the items of a sequence and the entries of a dictionary. *)

Section PyvalInduction.
Variable P : pyval -> Prop.
Hypothesis HNone : P VNone.
Hypothesis HBool : forall b, P (VBool b).
Hypothesis HInt : forall n, P (VInt n).
Hypothesis HFloat : forall f, P (VFloat f).
Hypothesis HStr : forall s, P (VStr s).
Hypothesis HUnicode : forall s, P (VUnicode s).
Hypothesis HList : forall l, Forall P l -> P (VList l).
Hypothesis HTuple : forall l, Forall P l -> P (VTuple l).
Hypothesis HDict : forall d, Forall (fun kv => P (snd kv)) d -> P (VDict d).
Hypothesis HObj : forall d, Forall (fun kv => P (snd kv)) d -> P (VObj d).

End PyvalInduction.

(** ** Sample calls

    A process in [/home/u] with an empty cache directory [/c], a few
    methods that count their own invocations, and a few decorations. *)

Module Sample.

Definition fresh : world nat :=
  World "/home/u" {[ "/c"; "/home/u" ]} ∅ [] [] [] 0%nat.

(** [def listing(...)] returns a dictionary. *)
Definition listing_result (n : nat) : pyval :=
  VDict [("count", VInt (Z.of_nat n)); ("tags", VList [VStr "a"; VNone])].

Definition listing : pyfunc nat :=
  PyFunc "listing" (fun _ _ n => (Ok (listing_result n), Datatypes.S n)).

(** [def pair(...)] returns a tuple. *)
Definition pair : pyfunc nat :=
  PyFunc "pair" (fun _ _ n => (Ok (VTuple [VInt 1; VInt 2]), Datatypes.S n)).

(** [def failing(...)] raises. *)
Definition failing : pyfunc nat :=
  PyFunc "failing" (fun _ _ n => (Raise (UserError "boom"), Datatypes.S n)).

(** [@simple_caching()] *)
Definition undecorated : closure := Closure VNone VNone (VBool false).

(** [@simple_caching(cachedir='/c')] *)
Definition in_c : closure := Closure (VStr "/c") VNone (VBool false).

(** [@simple_caching(cache_comment='v1')] *)
Definition comment_v1 : closure := Closure VNone (VStr "v1") (VBool false).

(** [@simple_caching(cachedir='/c', cache_comment='v1')] *)
Definition in_c_comment_v1 : closure :=
  Closure (VStr "/c") (VStr "v1") (VBool false).

(** [@simple_caching(cachedir='nowhere')] *)
Definition in_nowhere : closure :=
  Closure (VStr "nowhere") VNone (VBool false).


(** The world after the first cached call of [listing('x')]. *)
Definition listing_doc : json :=
  JObj [("count", JNum 0); ("tags", JArr [JStr "a"; JNull])].

Definition after_listing : world nat :=
  World "/home/u" {[ "/c"; "/home/u" ]}
        {[ "/c/listing.cache.gz" := GzJson listing_doc ]}
        ["[cache] generating /c/listing.cache.gz"] []
        [([VStr "x"], [])] 1%nat.

(** The world after [failing('x')] raised on a miss. *)
Definition after_failing : world nat :=
  World "/home/u" {[ "/c"; "/home/u" ]} ∅
        ["[cache] generating /c/failing.cache.gz"] []
        [([VStr "x"], [])] 1%nat.

End Sample.

(** ** Further notions for the properties below *)

Definition starts_with_punctuation (s : string) : bool :=
  match s with
  | String c _ => in_punctuation c
  | EmptyString => false
  end.

(** A name with a character that is not punctuation. *)
Fixpoint has_plain_char (s : string) : bool :=
  match s with
  | EmptyString => false
  | String c rest => negb (in_punctuation c) || has_plain_char rest
  end.

(** The second [%s] of line 108 for a string comment. *)
Definition comment_suffix (comment : string) : string :=
  if str_empty comment then "" else "_" ++ comment.

(** The list of line 93: the positional arguments of type [str]. *)
Definition str_arguments (args : list pyval) : list pyval :=
  List.filter (fun a => pytype_eqb (type_of a) TStr) args.

(** The value lines 88-91 give [autodetect], from the keywords of the
    call. *)
Definition resolved_autodetect (c : closure) (kwargs : dict) : pyval :=
  fst (resolve_autodetect c (snd (resolve_cache_comment c kwargs))).

(** More sample calls. *)

Module More.

(** [@simple_caching(cachedir='/c', autodetect=True)] *)
Definition autodetecting : closure :=
  Closure (VStr "/c") VNone (VBool true).

(** [@simple_caching(cachedir='/f')] *)
Definition in_f : closure := Closure (VStr "/f") VNone (VBool false).

(** [def handle(...)] returns an instance, which JSON cannot hold. *)
Definition handle : pyfunc nat :=
  PyFunc "handle" (fun _ _ n => (Ok (VObj []), Datatypes.S n)).

(** [def listing(s)]: one positional parameter and no keyword; any other
    call is the [TypeError] of the call itself, before the body runs. *)
Definition one_argument : pyfunc nat :=
  PyFunc "listing"
         (fun args kwargs n =>
            match args, kwargs with
            | [_], [] => (Ok (Sample.listing_result n), Datatypes.S n)
            | _, _ => (Raise TypeError, n)
            end).

(** Methods that return NaN, the single byte FF, and the two bytes C3 A9
    (the UTF-8 form of U+00E9). *)
Definition byte_ff : string := String (ascii_of_nat 255) "".
Definition bytes_c3_a9 : string :=
  String (ascii_of_nat 195) (String (ascii_of_nat 169) "").
Definition char_e9 : string := String (ascii_of_nat 233) "".

Definition not_a_number : pyfunc nat :=
  PyFunc "not_a_number"
         (fun _ _ n => (Ok (VFloat PrimFloat.nan), Datatypes.S n)).

Definition raw_byte : pyfunc nat :=
  PyFunc "raw_byte" (fun _ _ n => (Ok (VStr byte_ff), Datatypes.S n)).

Definition accented : pyfunc nat :=
  PyFunc "accented" (fun _ _ n => (Ok (VStr bytes_c3_a9), Datatypes.S n)).

(** A process where [/f] is a regular file. *)
Definition f_is_a_file : world nat :=
  World "/home/u" {[ "/home/u" ]} {[ "/f" := NotGzip ]} [] [] [] 0%nat.

(** The world after [handle('x')] under [@simple_caching(cachedir='/c')]. *)
Definition after_handle : world nat :=
  World "/home/u" {[ "/c"; "/home/u" ]}
        {[ "/c/handle.cache.gz" := GzOther ]}
        ["[cache] generating /c/handle.cache.gz"] []
        [([VStr "x"], [])] 1%nat.

(** The world after [listing('x')] under [@simple_caching(cachedir='/f')]. *)
Definition after_unwritable : world nat :=
  World "/home/u" {[ "/home/u" ]} {[ "/f" := NotGzip ]}
        ["[cache] generating /f/listing.cache.gz"] []
        [([VStr "x"], [])] 1%nat.

End More.

(** * Properties *)

(** ** Strings *)

Section Strings.

Lemma str_app_cons x (a b : string) : String x a ++ b = String x (a ++ b).
Proof. reflexivity. Qed.

Lemma str_app_assoc (a b c : string) : (a ++ b) ++ c = a ++ (b ++ c).
Proof.
  induction a as [|x a IH]; [reflexivity|].
  rewrite !str_app_cons. now rewrite IH.
Qed.

Lemma str_length_app (a b : string) :
  String.length (a ++ b) = (String.length a + String.length b)%nat.
Proof.
  induction a as [|x a IH]; [reflexivity|].
  rewrite str_app_cons. simpl. now rewrite IH.
Qed.

Lemma chars_app (a b : string) :
  list_ascii_of_string (a ++ b)
  = (list_ascii_of_string a ++ list_ascii_of_string b)%list.
Proof.
  induction a as [|x a IH]; [reflexivity|].
  rewrite str_app_cons. simpl. now rewrite IH.
Qed.

Lemma string_of_chars_app (a b : list ascii) :
  string_of_list_ascii (a ++ b)%list
  = string_of_list_ascii a ++ string_of_list_ascii b.
Proof.
  induction a as [|x a IH]; [reflexivity|].
  simpl. rewrite str_app_cons. now rewrite IH.
Qed.

Lemma reverse_involutive s : reverse (reverse s) = s.
Proof.
  unfold reverse.
  rewrite list_ascii_of_string_of_list_ascii, rev_involutive.
  apply string_of_list_ascii_of_string.
Qed.

Lemma reverse_app a b : reverse (a ++ b) = reverse b ++ reverse a.
Proof.
  unfold reverse. rewrite chars_app, rev_app_distr.
  apply string_of_chars_app.
Qed.



End Strings.

(** ** The cache file name (lines 108-116) *)

Section CacheName.

(** The leading loop always stops inside a name that carries the
    suffix, at the latest on the [c] of [cache]. *)
Lemma strip_leading_suffixed (s : string) :
  exists t, strip_leading (s ++ ".cache.gz") = Ok (t ++ "cache.gz")
            /\ starts_with_slash (t ++ "cache.gz") = false.
Proof.
  induction s as [|c s IH].
  - exists "". split; reflexivity.
  - rewrite str_app_cons. simpl.
    destruct (in_punctuation c) eqn:Hc; [exact IH|].
    exists (String c s ++ "."). split.
    + f_equal. rewrite str_app_assoc. reflexivity.
    + rewrite !str_app_cons. simpl.
      destruct (Ascii.eqb_spec c "/") as [->|]; [|reflexivity].
      discriminate Hc.
Qed.

(** The trailing loop looks at the [z] of [.gz] and stops at once. *)
Lemma strip_trailing_idle (t : string) :
  strip_trailing (t ++ "cache.gz") = Ok (t ++ "cache.gz").
Proof.
  unfold strip_trailing. rewrite reverse_app.
  change (reverse "cache.gz") with "zg.ehcac".
  rewrite str_app_cons. simpl.
  f_equal. rewrite <- str_app_cons.
  change "zg.ehcac" with (reverse "cache.gz").
  rewrite <- reverse_app. apply reverse_involutive.
Qed.

(** So lines 108-116 come to the leading loop on the suffixed name. *)
Lemma make_cachename_leading name cache_comment :
  make_cachename name cache_comment
  = (suffix <- (if truthy cache_comment
                then (t <- format_s cache_comment ;; Ok ("_" ++ t))
                else Ok "") ;;
     strip_leading (name ++ suffix ++ ".cache.gz"))%expr.
Proof.
  unfold make_cachename.
  destruct (if truthy cache_comment then _ else _) as [suffix| |];
    try reflexivity.
  unfold rbind at 1 3.
  rewrite <- str_app_assoc.
  destruct (strip_leading_suffixed (name ++ suffix)) as (t & -> & _).
  apply strip_trailing_idle.
Qed.

(** A cache file name is never empty and never starts a new root. *)
Lemma make_cachename_shape name cache_comment cachename :
  make_cachename name cache_comment = Ok cachename ->
  starts_with_slash cachename = false
  /\ (0 < String.length cachename)%nat.
Proof.
  rewrite make_cachename_leading.
  destruct (if truthy cache_comment then _ else _) as [suffix| |];
    try discriminate.
  unfold rbind. rewrite <- str_app_assoc.
  destruct (strip_leading_suffixed (name ++ suffix)) as (t & -> & Hs).
  intros [= <-]. split; [exact Hs|].
  rewrite str_length_app. simpl. lia.
Qed.

(** With a string comment the name is total: the two loops never index
    an empty string. *)
Lemma make_cachename_total name comment :
  exists cachename, make_cachename name (VStr comment) = Ok cachename.
Proof.
  rewrite make_cachename_leading. simpl.
  destruct (negb (str_empty comment)); unfold rbind;
    rewrite <- str_app_assoc;
    match goal with
    | |- context [strip_leading (?s ++ ".cache.gz")] =>
        destruct (strip_leading_suffixed s) as (t & -> & _)
    end; eauto.
Qed.

End CacheName.

(** ** The shape of a call *)

Section Shape.
Context {S : Type}.
Implicit Type w : world S.

(** Lines 98-103 as a function of the world.  The last branch is the
    lookup of [sys], which the module never binds. *)
Lemma validate_cachedir_eq (v : pyval) w :
  validate_cachedir v w
  = match as_text v with
    | None => (Raise TypeError, w)
    | Some s =>
        if path_exists w s then (Ok s, w)
        else if path_exists w (path_join (cwd w) s)
             then (Ok (path_join (cwd w) s), w)
             else (Raise (NameError "sys"), w)
    end.
Proof.
  unfold validate_cachedir, bind, exists_, getcwd, lift, ret,
    os_path_exists, text_of.
  destruct (as_text v) as [s|]; simpl; [|reflexivity].
  destruct (path_exists w s); simpl; [reflexivity|].
  destruct (path_exists w _); reflexivity.
Qed.

Lemma validate_cachedir_world (v : pyval) w :
  snd (validate_cachedir v w) = w.
Proof.
  rewrite validate_cachedir_eq.
  destruct (as_text v); [|reflexivity].
  repeat (destruct (path_exists w _); [reflexivity|]). reflexivity.
Qed.

Lemma derive_cached c name args kwargs w path kw :
  fst (derive c name args kwargs w) = Ok (Cached path kw)
  <-> cached_by c name args kwargs w path kw.
Proof.
  unfold cached_by, derive, bind, lift, ret. split.
  - destruct (resolve_cachedir c args kwargs) as [[cachedir kw0]| |];
      try discriminate.
    destruct (truthy cachedir) eqn:Ht; [simpl|discriminate].
    destruct (resolve_cache_comment c kw0) as [cc kw1] eqn:Hc.
    destruct (resolve_autodetect c kw1) as [ad kw2] eqn:Ha.
    destruct (detect ad cc args kw2) as [comment| |] eqn:Hdet;
      try discriminate.
    destruct (validate_cachedir cachedir w) as [[dir| |] w'] eqn:Hv;
      try discriminate.
    destruct (make_cachename name comment) as [cachename| |] eqn:Hn;
      try discriminate.
    simpl. intros [= <- <-].
    exists cachedir, kw0, comment, dir, cachename.
    rewrite Hc. simpl. rewrite Ha, Hv. simpl. auto 10.
  - intros (cachedir & kw0 & comment & dir & cachename
            & -> & -> & -> & Hdet & Hv & Hn & ->). simpl.
    destruct (resolve_cache_comment c kw0) as [cc kw1]. simpl in *.
    destruct (resolve_autodetect c kw1) as [ad kw2]. simpl in *.
    rewrite Hdet.
    destruct (validate_cachedir cachedir w) as [r w']. simpl in Hv.
    subst r. rewrite Hn. reflexivity.
Qed.

(** A derivation leaves the world as it found it. *)
Lemma derive_world c name args kwargs w :
  snd (derive c name args kwargs w) = w.
Proof.
  unfold derive, bind, lift, ret.
  destruct (resolve_cachedir c args kwargs) as [[cachedir kw]| |];
    try reflexivity.
  destruct (negb (truthy cachedir)); [reflexivity|].
  destruct (resolve_cache_comment c kw) as [cc kw1].
  destruct (resolve_autodetect c kw1) as [ad kw2].
  destruct (detect ad cc args kw2); try reflexivity.
  pose proof (validate_cachedir_world cachedir w) as Hw.
  destruct (validate_cachedir cachedir w) as [[d| |] w'];
    simpl in Hw; subst; try reflexivity.
  destruct (make_cachename name a); reflexivity.
Qed.

Lemma derive_inv c name args kwargs w p :
  fst (derive c name args kwargs w) = Ok p ->
  derive c name args kwargs w = (Ok p, w).
Proof.
  intros H. pose proof (derive_world c name args kwargs w) as Hw.
  destruct (derive c name args kwargs w) as [r w']; simpl in *.
  congruence.
Qed.

(** A call is its derivation followed by what the derivation settled. *)
Lemma method_wrapper_derive (c : closure) (m : pyfunc S) args kwargs w :
  method_wrapper c m args kwargs w
  = bind (derive c (__name__ m) args kwargs) (carry_out m args) w.
Proof.
  unfold method_wrapper, derive, bind, lift, ret.
  destruct (resolve_cachedir c args kwargs) as [[cachedir kw]| |];
    try reflexivity.
  destruct (negb (truthy cachedir)); [reflexivity|].
  destruct (resolve_cache_comment c kw) as [cc kw1].
  destruct (resolve_autodetect c kw1) as [ad kw2].
  destruct (detect ad cc args kw2); try reflexivity.
  destruct (validate_cachedir cachedir w) as [[d| |] w']; try reflexivity.
  destruct (make_cachename (__name__ m) a); reflexivity.
Qed.

Lemma method_wrapper_cached (c : closure) (m : pyfunc S) args kwargs w
    path kw :
  fst (derive c (__name__ m) args kwargs w) = Ok (Cached path kw) ->
  method_wrapper c m args kwargs w = load_or_compute m args kw path w.
Proof.
  intros Hd. rewrite method_wrapper_derive. unfold bind.
  now rewrite (derive_inv _ _ _ _ _ _ Hd).
Qed.

(** Lines 123-128 and lines 121-122. *)
Lemma load_or_compute_miss (m : pyfunc S) args kwargs path w :
  path_exists w path = false ->
  load_or_compute m args kwargs path w
  = (tocache <- call_method m args kwargs ;;
     gzip_json_dump path tocache ;;;
     ret tocache)%stmt
      (with_stdout w ("[cache] generating " ++ path)).
Proof.
  intros H. unfold load_or_compute, bind at 1, exists_, os_path_exists.
  simpl. rewrite H. reflexivity.
Qed.

Lemma load_or_compute_hit (m : pyfunc S) args kwargs path w :
  path_exists w path = true ->
  load_or_compute m args kwargs path w = gzip_json_load path w.
Proof.
  intros H. unfold load_or_compute, bind, exists_, os_path_exists.
  simpl. rewrite H. reflexivity.
Qed.

(** On a miss the method is called once, with the keywords the
    derivation kept, whatever happens afterwards. *)
Lemma miss_calls (c : closure) (m : pyfunc S) args kwargs w path kw :
  fst (derive c (__name__ m) args kwargs w) = Ok (Cached path kw) ->
  path_exists w path = false ->
  calls (snd (method_wrapper c m args kwargs w))
  = (calls w ++ [(args, kw)])%list.
Proof.
  intros Hd Hmiss. rewrite (method_wrapper_cached _ _ _ _ _ _ _ Hd).
  rewrite load_or_compute_miss by exact Hmiss.
  unfold bind, call_method, gzip_json_dump, ret. simpl.
  destruct (body m args kw (mstate w)) as [[r| |] s']; try reflexivity.
  destruct (can_create _ path); [|reflexivity].
  destruct (json_dump r); reflexivity.
Qed.

End Shape.

(** ** What the cache format keeps of a result *)

Section RoundTrip.







(** A tuple never is: it is read back as a list. *)
Lemma tuple_read_back_as_list (l : list pyval) (doc : json) :
  encode (VTuple l) = Some doc ->
  deep_equal (decode doc) (VTuple l) = false.
Proof.
  simpl. destruct (mapM encode l) as [js|]; [|discriminate].
  intros [= <-]. reflexivity.
Qed.

End RoundTrip.

(** ** The cache write does not move the cache path *)

Section Stability.
Context {S : Type}.
Implicit Type w : world S.




Lemma can_create_frame w w' p :
  cwd w' = cwd w -> dirs w' = dirs w -> can_create w' p = can_create w p.
Proof. intros Hc Hd. unfold can_create, parent_dir. now rewrite Hc, Hd. Qed.

End Stability.

(** ** Keyword dictionaries *)

Section Keywords.

Lemma dict_get_remove_ne (d : dict) (k k' : string) :
  k <> k' -> dict_get (dict_remove d k) k' = dict_get d k'.
Proof.
  intros Hne. unfold dict_remove.
  induction d as [|[k0 v0] d IH]; simpl; [reflexivity|].
  destruct (String.eqb_spec k k0) as [->|Hk]; simpl.
  - destruct (String.eqb_spec k' k0); [congruence|exact IH].
  - now rewrite IH.
Qed.

Lemma dict_get_remove_eq (d : dict) (k : string) :
  dict_get (dict_remove d k) k = None.
Proof.
  unfold dict_remove.
  induction d as [|[k0 v0] d IH]; simpl; [reflexivity|].
  destruct (String.eqb_spec k k0) as [->|Hk]; simpl; [exact IH|].
  destruct (String.eqb_spec k k0); [contradiction|exact IH].
Qed.

(** What [pop] leaves under the popped key and under any other. *)
Lemma dict_pop_same (d : dict) k default :
  dict_get (snd (dict_pop d k default)) k = None.
Proof.
  unfold dict_pop. destruct (dict_get d k) eqn:H; simpl; [|exact H].
  apply dict_get_remove_eq.
Qed.

Lemma dict_pop_other (d : dict) k k' default :
  k <> k' -> dict_get (snd (dict_pop d k default)) k' = dict_get d k'.
Proof.
  intros Hne. unfold dict_pop.
  destruct (dict_get d k); simpl; [|reflexivity].
  now apply dict_get_remove_ne.
Qed.

(** Lines 70-76 touch no keyword but [cachedir]. *)
Lemma resolve_cachedir_keywords c args kwargs cachedir kw0 k :
  resolve_cachedir c args kwargs = Ok (cachedir, kw0) ->
  k <> "cachedir" -> dict_get kw0 k = dict_get kwargs k.
Proof.
  unfold resolve_cachedir. intros H Hne.
  destruct (negb (truthy (local_cachedir c))); [|congruence].
  destruct args as [|a0 rest]; simpl in H; [discriminate|].
  destruct (getattr a0 "cachedir") as [v|e|]; simpl in H;
    try discriminate; [congruence|].
  destruct e; try discriminate.
  injection H as H.
  replace kw0 with (snd (dict_pop kwargs "cachedir" VNone))
    by now rewrite H.
  apply dict_pop_other. congruence.
Qed.

(** Lines 83-86 and 88-91: the keyword is popped in the branch that
    reads it, and only there. *)
Lemma resolve_cache_comment_keywords c kwargs k :
  dict_get (snd (resolve_cache_comment c kwargs)) k
  = if negb (truthy (local_cache_comment c)) && String.eqb k "cache_comment"
    then None else dict_get kwargs k.
Proof.
  unfold resolve_cache_comment.
  destruct (truthy (local_cache_comment c)); simpl; [reflexivity|].
  destruct (String.eqb_spec k "cache_comment") as [->|Hne].
  - apply dict_pop_same.
  - apply dict_pop_other. congruence.
Qed.

Lemma resolve_autodetect_keywords c kwargs k :
  dict_get (snd (resolve_autodetect c kwargs)) k
  = if negb (truthy (local_autodetect c)) && String.eqb k "autodetect"
    then None else dict_get kwargs k.
Proof.
  unfold resolve_autodetect.
  destruct (truthy (local_autodetect c)); simpl; [reflexivity|].
  destruct (String.eqb_spec k "autodetect") as [->|Hne].
  - apply dict_pop_same.
  - apply dict_pop_other. congruence.
Qed.

(** Line 86: a bound comment is replaced by the bound directory. *)
Lemma bound_comment_is_the_directory (c : closure) (kwargs : dict) :
  truthy (local_cache_comment c) = true ->
  resolve_cache_comment c kwargs = (local_cachedir c, kwargs).
Proof. intros H. unfold resolve_cache_comment. now rewrite H. Qed.

(** Lines 94-96: a keyword name is a [str], so the type test lets every
    keyword through, whatever its value. *)
Lemma detect_selects_every_keyword (kwargs : dict) :
  List.filter (fun kv => type_in (type_of (VStr (fst kv)))
                           [TFloat; TInt; TStr; TUnicode]) kwargs
  = kwargs.
Proof.
  induction kwargs as [|kv d IH]; [reflexivity|].
  change (kv :: List.filter
                  (fun kv => type_in (type_of (VStr (fst kv)))
                               [TFloat; TInt; TStr; TUnicode]) d
          = kv :: d).
  now rewrite IH.
Qed.

(** Lines 72-74 with a first argument that has no [cachedir]: the
    handler pops the keyword. *)
Lemma keyword_lookup_with_plain_argument
    (cache_comment autodetect a0 : pyval) rest (kwargs : dict) :
  getattr a0 "cachedir" = Raise AttributeError ->
  resolve_cachedir (Closure VNone cache_comment autodetect)
                   (a0 :: rest) kwargs
  = Ok (dict_pop kwargs "cachedir" VNone).
Proof. intros H. unfold resolve_cachedir. simpl. rewrite H. reflexivity. Qed.

End Keywords.

(** ** Bypass and directory validation *)

Section Bypass.
Context {S : Type}.
Implicit Type w : world S.

(** Line 81: once lines 70-76 have come back with no directory, the
    call is the method's own call. *)
Lemma bypass_calls_method (c : closure) (m : pyfunc S) args kwargs w d kw :
  resolve_cachedir c args kwargs = Ok (d, kw) -> truthy d = false ->
  method_wrapper c m args kwargs w = call_method m args kw w.
Proof.
  intros Hres Hd. unfold method_wrapper, bind, lift.
  rewrite Hres, Hd. reflexivity.
Qed.

Lemma call_method_files (m : pyfunc S) args kw w :
  files (snd (call_method m args kw w)) = files w
  /\ dirs (snd (call_method m args kw w)) = dirs w.
Proof.
  unfold call_method. destruct (body m args kw (mstate w)).
  split; reflexivity.
Qed.


End Bypass.

(** ** A directory bound at decoration time

    [@simple_caching(cachedir=d)], with or without the other two options
    at decoration time, as long as [autodetect] is off: the derivation is
    total when [d] exists, and ends on the lookup of [sys] when it does
    not. *)

Section Decorated.
Context {S : Type}.
Implicit Type w : world S.

Lemma dict_pop_absent (d : dict) k default :
  dict_get d k = None -> dict_pop d k default = (default, d).
Proof. intros H. unfold dict_pop. now rewrite H. Qed.

Lemma as_text_truthy (v : pyval) (d : string) :
  as_text v = Some d -> truthy v = negb (str_empty d).
Proof. destruct v; simpl; try discriminate; now intros [= ->]. Qed.

(** X15.  Take a decoration that binds a directory (a non-empty string,
    [str] or [unicode]) which exists, and binds neither a comment nor
    [autodetect]: whatever false values it has in their place.  A call
    with neither [cache_comment] nor [autodetect] among its keywords
    derives a cache path, whatever its positional arguments are and also
    when it has none: the directory joined with the file name of the
    method, and every keyword is kept for the method. *)
Lemma derive_decorated (dir cache_comment autodetect : pyval)
    (d name : string) args kwargs w :
  as_text dir = Some d ->
  str_empty d = false ->
  truthy cache_comment = false ->
  truthy autodetect = false ->
  path_exists w d = true ->
  dict_get kwargs "cache_comment" = None ->
  dict_get kwargs "autodetect" = None ->
  exists cachename,
    make_cachename name (VStr "") = Ok cachename
    /\ fst (derive (Closure dir cache_comment autodetect) name args kwargs w)
       = Ok (Cached (path_join d cachename) kwargs).
Proof.
  intros Ht Hd Hcc Had He Hc Ha.
  pose proof (as_text_truthy _ _ Ht) as Hdir. rewrite Hd in Hdir.
  destruct (make_cachename_total name "") as [cachename Hn].
  exists cachename. split; [exact Hn|].
  apply derive_cached.
  exists dir, kwargs, (VStr ""), d, cachename.
  unfold resolve_cachedir, resolve_cache_comment, resolve_autodetect. simpl.
  rewrite Hdir, Hcc, Had. simpl.
  rewrite (dict_pop_absent _ _ _ Hc). simpl.
  rewrite (dict_pop_absent _ _ _ Ha). simpl.
  rewrite validate_cachedir_eq, Ht. simpl. rewrite He. auto 10.
Qed.


End Decorated.

(** ** The properties the specification states *)

Section Stated.
Context {S : Type}.
Implicit Type w : world S.


(** C2.  With no positional argument and no decoration-time directory a
    call does not reach the bypass of line 81: [args[0]] raises
    [IndexError], the method is not invoked and the world is as it
    was. *)
Theorem bypass_without_arguments (cache_comment autodetect : pyval)
    (m : pyfunc S) kwargs w :
  method_wrapper (Closure VNone cache_comment autodetect) m [] kwargs w
  = (Raise IndexError, w).
Proof. reflexivity. Qed.

(** C7.  On a cache miss where the method raises, the call ends with
    that very exception; the files and directories are those of before
    and still no file exists at the cache path. *)
Theorem computation_error_leaves_no_cache (c : closure) (m : pyfunc S)
    args kwargs w path kw e s' :
  fst (derive c (__name__ m) args kwargs w) = Ok (Cached path kw) ->
  path_exists w path = false ->
  body m args kw (mstate w) = (Raise e, s') ->
  let w' := with_call (with_stdout w ("[cache] generating " ++ path))
                      (args, kw) s' in
  method_wrapper c m args kwargs w = (Raise e, w')
  /\ files w' = files w /\ dirs w' = dirs w
  /\ path_exists w' path = false.
Proof.
  intros Hd Hmiss Hbody w'. split; [|repeat split; exact Hmiss].
  rewrite (method_wrapper_cached _ _ _ _ _ _ _ Hd).
  rewrite load_or_compute_miss by exact Hmiss.
  unfold bind, call_method. simpl. rewrite Hbody. reflexivity.
Qed.

(** Lines 83-91 as they are.  On a cache miss the method is invoked
    with the keywords the wrapper left.  [cache_comment] has been removed
    from them exactly when no decoration-time comment is bound,
    [autodetect] exactly when no decoration-time [autodetect] is bound;
    a keyword whose option is bound at decoration time is still there,
    with the value the caller gave. *)
Theorem options_consumed_when_unbound (c : closure) (m : pyfunc S)
    args kwargs w path kw :
  fst (derive c (__name__ m) args kwargs w) = Ok (Cached path kw) ->
  path_exists w path = false ->
  calls (snd (method_wrapper c m args kwargs w))
  = (calls w ++ [(args, kw)])%list
  /\ dict_get kw "cache_comment"
     = (if truthy (local_cache_comment c)
        then dict_get kwargs "cache_comment" else None)
  /\ dict_get kw "autodetect"
     = (if truthy (local_autodetect c)
        then dict_get kwargs "autodetect" else None).
Proof.
  intros Hd Hmiss. split; [now apply (miss_calls c m _ kwargs w path)|].
  apply derive_cached in Hd
    as (cachedir & kw0 & _ & _ & _ & Hres & _ & -> & _).
  rewrite !resolve_autodetect_keywords, !resolve_cache_comment_keywords.
  rewrite !(resolve_cachedir_keywords _ _ _ _ _ _ Hres) by discriminate.
  simpl. rewrite !andb_false_r, !andb_true_r.
  destruct (truthy (local_cache_comment c)), (truthy (local_autodetect c));
    split; reflexivity.
Qed.


End Stated.

(** C8.  With no positional argument and no decoration-time directory,
    lines 70-76 end in the [IndexError] of [args[0]], whatever the keywords
    are: the handler that would read the [cachedir] keyword is not
    reached. *)
Theorem no_arguments_no_keyword_lookup (cache_comment autodetect : pyval)
    (kwargs : dict) :
  resolve_cachedir (Closure VNone cache_comment autodetect) [] kwargs
  = Raise IndexError.
Proof. reflexivity. Qed.

(** ** The same properties on the sample calls *)

Section OnSamples.
Import Sample.



(** A method that returns NaN: the document holds NaN, the later calls
    return NaN, and NaN is not equal to NaN. *)
Lemma nan_comes_back_unequal :
  let call := method_wrapper in_c More.not_a_number [VStr "x"] [] in
  let w1 := snd (call fresh) in
  fst (call fresh) = Ok (VFloat PrimFloat.nan)
  /\ json_dump (VFloat PrimFloat.nan) = Ok (JFloat PrimFloat.nan)
  /\ fst (call w1) = Ok (VFloat PrimFloat.nan)
  /\ calls (snd (call w1)) = calls w1
  /\ deep_equal (VFloat PrimFloat.nan) (VFloat PrimFloat.nan) = false.
Proof. vm_compute. repeat split; reflexivity. Qed.

(** A method that returns the [str] of the two bytes C3 A9: the document
    holds the one character U+00E9, which the later calls return as a
    [unicode] string; Python 2 does not find it equal to the [str]. *)
Lemma accented_str_comes_back_as_unicode :
  let call := method_wrapper in_c More.accented [VStr "x"] [] in
  let w1 := snd (call fresh) in
  fst (call fresh) = Ok (VStr More.bytes_c3_a9)
  /\ json_dump (VStr More.bytes_c3_a9) = Ok (JStr More.char_e9)
  /\ fst (call w1) = Ok (VUnicode More.char_e9)
  /\ calls (snd (call w1)) = calls w1
  /\ deep_equal (VUnicode More.char_e9) (VStr More.bytes_c3_a9) = false.
Proof. vm_compute. repeat split; reflexivity. Qed.

(** A method that returns the [str] of the single byte FF, which is not
    UTF-8: the encoder accepts the type but [json.dump] raises
    [UnicodeDecodeError], after the file has been created.  The first
    call ends in that error and every later one in [ValueError], the
    method not being invoked again. *)
Lemma undecodable_str_is_not_stored :
  let call := method_wrapper in_c More.raw_byte [VStr "x"] [] in
  let w1 := snd (call fresh) in
  encode (VStr More.byte_ff) = Some (JStr More.byte_ff)
  /\ json_dump (VStr More.byte_ff) = Raise UnicodeDecodeError
  /\ fst (call fresh) = Raise UnicodeDecodeError
  /\ files w1 !! "/c/raw_byte.cache.gz" = Some GzOther
  /\ call w1 = (Raise ValueError, w1).
Proof. vm_compute. repeat split; reflexivity. Qed.

(** [failing('x')] under [@simple_caching(cachedir='/c')]. *)
Lemma computation_error_leaves_no_cache_witness :
  method_wrapper in_c failing [VStr "x"] [] fresh
  = (Raise (UserError "boom"), after_failing)
  /\ files after_failing = files fresh
  /\ dirs after_failing = dirs fresh
  /\ path_exists after_failing "/c/failing.cache.gz" = false.
Proof.
  exact (computation_error_leaves_no_cache in_c failing
           [VStr "x"] [] fresh "/c/failing.cache.gz" []
           (UserError "boom") 1%nat eq_refl eq_refl eq_refl).
Defined.

(** [listing('x', cachedir='/c', cache_comment='y', autodetect=False)]
    under [@simple_caching(cache_comment='v1')]: [autodetect] is
    consumed, [cache_comment] is not. *)
Lemma options_consumed_when_unbound_witness :
  calls (snd (method_wrapper comment_v1 listing [VStr "x"]
                [("cachedir", VStr "/c"); ("cache_comment", VStr "y");
                 ("autodetect", VBool false)]
                fresh))
  = [([VStr "x"], [("cache_comment", VStr "y")])]
  /\ dict_get [("cache_comment", VStr "y")] "cache_comment"
     = Some (VStr "y")
  /\ dict_get [("cache_comment", VStr "y")] "autodetect" = None.
Proof.
  exact (options_consumed_when_unbound comment_v1 listing [VStr "x"]
           [("cachedir", VStr "/c"); ("cache_comment", VStr "y");
            ("autodetect", VBool false)]
           fresh "/c/listing.cache.gz" [("cache_comment", VStr "y")]
           eq_refl eq_refl).
Defined.

(** C9.  [listing('x', cachedir='/c', cache_comment='y')] for
    [def listing(s)], on a cache miss.  Under
    [@simple_caching(cache_comment='v1')] the decoration wins and the
    keyword is not consumed: the method is invoked with
    [cache_comment='y'], a keyword it does not have, and the call ends
    in the [TypeError] of that invocation with nothing cached.  Under
    [@simple_caching()], where the keyword of the call wins, it is
    consumed and the call returns the result of the method. *)
Theorem bound_comment_reaches_the_method :
  let kwargs := [("cachedir", VStr "/c"); ("cache_comment", VStr "y")] in
  let bound := method_wrapper comment_v1 More.one_argument [VStr "x"]
                              kwargs fresh in
  let unbound := method_wrapper undecorated More.one_argument [VStr "x"]
                                kwargs fresh in
  fst (derive comment_v1 "listing" [VStr "x"] kwargs fresh)
  = Ok (Cached "/c/listing.cache.gz" [("cache_comment", VStr "y")])
  /\ path_exists fresh "/c/listing.cache.gz" = false
  /\ fst bound = Raise TypeError
  /\ calls (snd bound) = [([VStr "x"], [("cache_comment", VStr "y")])]
  /\ files (snd bound) = files fresh
  /\ fst unbound = Ok (listing_result 0)
  /\ calls (snd unbound) = [([VStr "x"], [])].
Proof. vm_compute. repeat split; reflexivity. Qed.

(** The same with [autodetect]:
    [listing('x', autodetect='no')] under
    [@simple_caching(cachedir='/c', autodetect=True)].  The keyword is
    left in place, its value goes into the key, and the method is
    invoked with it. *)
Lemma bound_autodetect_reaches_the_method :
  let kwargs := [("autodetect", VStr "no")] in
  let bound := method_wrapper More.autodetecting More.one_argument
                              [VStr "x"] kwargs fresh in
  fst (derive More.autodetecting "listing" [VStr "x"] kwargs fresh)
  = Ok (Cached "/c/listing_xno.cache.gz" [("autodetect", VStr "no")])
  /\ fst bound = Raise TypeError
  /\ calls (snd bound) = [([VStr "x"], [("autodetect", VStr "no")])].
Proof. vm_compute. repeat split; reflexivity. Qed.


(** C3.  [listing('x')] under
    [@simple_caching(cachedir='/c', cache_comment='v1')]: the key is
    built from the directory ['/c'] and not from the comment ['v1'],
    where the specification's wording gives [listing_v1.cache.gz]. *)
Theorem decoration_comment_replaced_by_directory :
  fst (derive in_c_comment_v1 "listing" [VStr "x"] [] fresh)
  = Ok (Cached "/c/listing_/c.cache.gz" [])
  /\ spec_cache_file_name "listing" "v1" = "listing_v1.cache.gz".
Proof. split; reflexivity. Qed.

(** C4.  [listing('x', cachedir='/c', autodetect=True, verbose=b)]
    under [@simple_caching()]: the boolean keyword value is selected
    like any other and the join raises [TypeError]; no key is derived,
    the method is not invoked. *)
Theorem autodetect_boolean_keyword_TypeError (b : bool) :
  method_wrapper undecorated listing [VStr "x"]
    [("cachedir", VStr "/c"); ("autodetect", VBool true);
     ("verbose", VBool b)]
    fresh
  = (Raise TypeError, fresh).
Proof. destruct b; reflexivity. Qed.

(** C5.  For a method named [__call__] and no comment the file name
    keeps the trailing underscores: the loops run on the name with
    [.cache.gz] already appended.  The specification's wording gives
    [call.cache.gz]. *)
Theorem trailing_punctuation_kept :
  make_cachename "__call__" (VStr "") = Ok "call__.cache.gz"
  /\ spec_cache_file_name "__call__" "" = "call.cache.gz".
Proof. split; reflexivity. Qed.

(** C6.  [listing('x')] under [@simple_caching(cachedir='nowhere')],
    with neither [nowhere] nor [/home/u/nowhere] present: the call
    ends in [NameError] on [sys]; nothing is written to the error
    stream, no [SystemExit] is raised, the method is not invoked. *)
Theorem missing_directory_raises_NameError :
  path_exists fresh "nowhere" = false
  /\ path_join (cwd fresh) "nowhere" = "/home/u/nowhere"
  /\ path_exists fresh "/home/u/nowhere" = false
  /\ method_wrapper in_nowhere listing [VStr "x"] [] fresh
     = (Raise (NameError "sys"), fresh).
Proof. repeat split; reflexivity. Qed.

End OnSamples.

(** * Further properties of the wrapper *)

(** ** More on names and paths (lines 108-117) *)

Section MoreNames.

Lemma str_app_inv_l (a b c : string) : a ++ b = a ++ c -> b = c.
Proof.
induction a as [|x a IH]; [auto|]. rewrite !str_app_cons.
intros [= H]. auto.
Qed.

Lemma str_app_inv_r (a b c : string) : a ++ c = b ++ c -> a = b.
Proof.
intros H. apply (f_equal reverse) in H. rewrite !reverse_app in H.
apply str_app_inv_l in H. apply (f_equal reverse) in H.
now rewrite !reverse_involutive in H.
Qed.

Lemma path_join_inj (dir a b : string) :
  starts_with_slash a = false -> starts_with_slash b = false ->
  path_join dir a = path_join dir b -> a = b.
Proof.
intros Ha Hb. unfold path_join. rewrite Ha, Hb.
destruct (_ || _); intros H.
- now apply str_app_inv_l in H.
- apply str_app_inv_l in H. now apply str_app_inv_l in H.
Qed.

Lemma strip_leading_plain (s : string) :
  exists t, strip_leading (s ++ ".cache.gz") = Ok (t ++ "cache.gz")
            /\ starts_with_punctuation (t ++ "cache.gz") = false.
Proof.
induction s as [|c s IH].
- exists "". split; reflexivity.
- rewrite str_app_cons. simpl.
  destruct (in_punctuation c) eqn:Hc; [exact IH|].
  exists (String c s ++ "."). split.
  + f_equal. rewrite str_app_assoc. reflexivity.
  + rewrite !str_app_cons. simpl. exact Hc.
Qed.

(** The leading loop stops on the first plain character of the name,
    whatever follows the name. *)
Lemma strip_leading_keeps_plain (name : string) :
  has_plain_char name = true ->
  exists kept, forall rest, strip_leading (name ++ rest) = Ok (kept ++ rest).
Proof.
intros H. induction name as [|c name IH]; [discriminate|].
simpl in H. destruct (in_punctuation c) eqn:Hc; simpl in H.
- destruct (IH H) as (kept & Hs). exists kept.
  intros r. rewrite str_app_cons. simpl. rewrite Hc. apply Hs.
- exists (String c name).
  intros r. rewrite str_app_cons. simpl. rewrite Hc. reflexivity.
Qed.

Lemma make_cachename_plain name comment :
  make_cachename name (VStr comment)
  = strip_leading (name ++ comment_suffix comment ++ ".cache.gz").
Proof.
rewrite make_cachename_leading. unfold comment_suffix. simpl.
destruct (str_empty comment); reflexivity.
Qed.

Lemma make_cachename_injective (name c1 c2 : string) :
  has_plain_char name = true ->
  make_cachename name (VStr c1) = make_cachename name (VStr c2) ->
  c1 = c2.
Proof.
intros Hp. rewrite !make_cachename_plain.
destruct (strip_leading_keeps_plain name Hp) as (kept & Hs).
rewrite !Hs. intros [= H].
apply str_app_inv_l in H. apply str_app_inv_r in H.
unfold comment_suffix in H.
destruct c1 as [|x1 c1], c2 as [|x2 c2]; simpl in H;
  rewrite ?str_app_cons in H; try reflexivity; try discriminate.
injection H as -> ->. reflexivity.
Qed.

(** X3.  For every method name and every string comment the cache file
    name is defined (neither loop ever indexes an empty string), it ends
    in [cache.gz] and it does not start with a punctuation character. *)
Theorem cachename_shape (name comment : string) :
  exists t,
    make_cachename name (VStr comment) = Ok (t ++ "cache.gz")
    /\ starts_with_punctuation (t ++ "cache.gz") = false.
Proof.
rewrite make_cachename_leading. simpl.
destruct (negb (str_empty comment)); unfold rbind;
  rewrite <- str_app_assoc;
  match goal with
  | |- context [strip_leading (?s ++ ".cache.gz")] =>
      destruct (strip_leading_plain s) as (t & -> & Ht)
  end; eauto.
Qed.

(** X4.  A cache file name never starts with a slash, so the join of
    line 117 never drops the cache directory: the cache path is the
    directory followed by the name, with one slash put between them
    exactly when the directory is not empty and does not end with a
    slash. *)
Theorem cache_path_inside_directory (dir name : string) (comment : pyval)
    (cachename : string) :
  make_cachename name comment = Ok cachename ->
  starts_with_slash cachename = false
  /\ path_join dir cachename
     = (if str_empty dir || ends_with_slash dir
        then dir ++ cachename
        else dir ++ "/" ++ cachename).
Proof.
intros H. destruct (make_cachename_shape _ _ _ H) as [Hs _].
split; [exact Hs|]. unfold path_join. now rewrite Hs.
Qed.

End MoreNames.

(** ** What enters the key (lines 70-96) *)

Section MoreKeys.
Context {S : Type}.
Implicit Type w : world S.

Lemma dict_remove_absent (d : dict) k :
  dict_get d k = None -> dict_remove d k = d.
Proof.
unfold dict_remove. induction d as [|[k0 v0] d IH]; simpl; [reflexivity|].
destruct (String.eqb_spec k k0) as [->|Hne]; [discriminate|].
intros H. simpl. now rewrite IH.
Qed.

Lemma dict_pop_keywords (d : dict) k default :
  snd (dict_pop d k default) = dict_remove d k.
Proof.
unfold dict_pop. destruct (dict_get d k) eqn:H; simpl; [reflexivity|].
symmetry. now apply dict_remove_absent.
Qed.

Lemma detect_str_arguments ad cc args args' kwargs :
  str_arguments args = str_arguments args' ->
  detect ad cc args kwargs = detect ad cc args' kwargs.
Proof. unfold detect, str_arguments. intros H. now rewrite H. Qed.

Lemma detect_off ad cc args kwargs :
  truthy ad = false -> detect ad cc args kwargs = Ok cc.
Proof. intros H. unfold detect. now rewrite H. Qed.

Lemma key_without_autodetect (c : closure) (name : string)
    args args' kwargs w :
  truthy (local_cachedir c) = true ->
  truthy (resolved_autodetect c kwargs) = false ->
  fst (derive c name args kwargs w) = fst (derive c name args' kwargs w).
Proof.
intros Hl Ha. unfold derive, bind, lift, ret, resolve_cachedir.
rewrite Hl. simpl. unfold resolved_autodetect in Ha.
destruct (resolve_cache_comment c kwargs) as [cc kw1]. simpl in Ha.
destruct (resolve_autodetect c kw1) as [ad kw2]. simpl in Ha.
now rewrite !(detect_off ad cc _ kw2 Ha).
Qed.

Lemma join_strings (ss : list string) :
  str_join "_" (map VStr ss) = Ok (VStr (String.concat "_" ss)).
Proof.
unfold str_join.
assert (H2 : texts (map VStr ss) = ss)
  by (induction ss as [|s ss IH]; [reflexivity|];
      simpl; f_equal; exact IH).
assert (H1 : first_not_str (map VStr ss) = None)
  by (clear H2; induction ss as [|s ss IH]; [reflexivity|exact IH]).
now rewrite H1, H2.
Qed.

(** X1.  With no directory bound at decoration time, a first argument
    that has no [cachedir] attribute and no (or a false) [cachedir]
    keyword, the call is the method's own call on the same arguments and
    the keywords without [cachedir]: same result, no file or directory
    touched, nothing printed. *)
Theorem bypass_plain_argument (c : closure) (m : pyfunc S) a0 rest kwargs w :
  truthy (local_cachedir c) = false ->
  getattr a0 "cachedir" = Raise AttributeError ->
  truthy (fst (dict_pop kwargs "cachedir" VNone)) = false ->
  let out := method_wrapper c m (a0 :: rest) kwargs w in
  out = call_method m (a0 :: rest) (dict_remove kwargs "cachedir") w
  /\ fst out
     = fst (body m (a0 :: rest) (dict_remove kwargs "cachedir") (mstate w))
  /\ files (snd out) = files w /\ dirs (snd out) = dirs w
  /\ stdout (snd out) = stdout w.
Proof.
intros Hl Ha Hk out.
assert (Hout : out = call_method m (a0 :: rest)
                                 (dict_remove kwargs "cachedir") w).
{ unfold out. rewrite <- dict_pop_keywords with (default := VNone).
  apply bypass_calls_method
    with (d := fst (dict_pop kwargs "cachedir" VNone)); [|exact Hk].
  unfold resolve_cachedir. rewrite Hl. simpl. rewrite Ha. simpl.
  now destruct (dict_pop kwargs "cachedir" VNone). }
split; [exact Hout|]. rewrite Hout. unfold call_method.
destruct (body m (a0 :: rest) (dict_remove kwargs "cachedir") (mstate w)).
repeat split; reflexivity.
Qed.

(** X2.  A call that fails while it resolves its options, validates the
    directory or builds the name (lines 70-117) has done nothing: the
    world is as before, the method has not been invoked. *)
Theorem configuration_failure_has_no_effect (c : closure) (m : pyfunc S)
    args kwargs w e :
  fst (derive c (__name__ m) args kwargs w) = Raise e ->
  method_wrapper c m args kwargs w = (Raise e, w).
Proof.
intros H. rewrite method_wrapper_derive. unfold bind.
pose proof (derive_world c (__name__ m) args kwargs w) as Hw.
destruct (derive c (__name__ m) args kwargs w) as [r w']. simpl in *.
subst. reflexivity.
Qed.

(** X6.  With the directory bound at decoration time, the positional
    arguments enter the key through those of type [str] only: two calls
    whose [str] arguments agree derive the same cache path (or fail the
    same way), whatever their other arguments are. *)
Theorem key_ignores_other_arguments (c : closure) (name : string)
    args args' kwargs w :
  truthy (local_cachedir c) = true ->
  str_arguments args = str_arguments args' ->
  fst (derive c name args kwargs w) = fst (derive c name args' kwargs w).
Proof.
intros Hl Hs. unfold derive, bind, lift, ret, resolve_cachedir.
rewrite Hl. simpl.
destruct (resolve_cache_comment c kwargs) as [cc kw1].
destruct (resolve_autodetect c kw1) as [ad kw2].
now rewrite (detect_str_arguments ad cc args args' kw2 Hs).
Qed.

(** X7.  With the directory bound at decoration time and [autodetect]
    off, the cache is shared by all argument lists: once the file of a
    call holds a document, a call with the same keywords and any
    positional arguments returns that document's value and does not
    invoke the method. *)
Theorem cache_shared_across_arguments (c : closure) (m : pyfunc S)
    args kwargs w path kw doc :
  truthy (local_cachedir c) = true ->
  truthy (resolved_autodetect c kwargs) = false ->
  fst (derive c (__name__ m) args kwargs w) = Ok (Cached path kw) ->
  files w !! path = Some (GzJson doc) ->
  forall args', method_wrapper c m args' kwargs w = (Ok (decode doc), w).
Proof.
intros Hl Ha Hd Hf args'.
rewrite (key_without_autodetect c _ args args' kwargs w Hl Ha) in Hd.
rewrite (method_wrapper_cached _ _ _ _ _ _ _ Hd).
rewrite load_or_compute_hit; unfold gzip_json_load, path_exists;
  now rewrite Hf.
Qed.

(** X8.  When something exists at the cache path the call only reads.
    Whatever is there, the method is not invoked and the world is left as
    it was; and the call returns a value only when a JSON document is
    there, the value of that document.  So a cache file that holds no
    document is never recomputed nor replaced. *)
Theorem hit_never_recomputes (c : closure) (m : pyfunc S)
    args kwargs w path kw :
  fst (derive c (__name__ m) args kwargs w) = Ok (Cached path kw) ->
  path_exists w path = true ->
  snd (method_wrapper c m args kwargs w) = w
  /\ forall v, fst (method_wrapper c m args kwargs w) = Ok v ->
               exists doc, files w !! path = Some (GzJson doc)
                           /\ v = decode doc.
Proof.
intros Hd He. rewrite (method_wrapper_cached _ _ _ _ _ _ _ Hd).
rewrite load_or_compute_hit by exact He. unfold gzip_json_load.
destruct (files w !! path) as [[doc| | |]|]; simpl;
  (split; [reflexivity|]); intros v Hv; try discriminate.
injection Hv as <-. eauto.
Qed.

End MoreKeys.

(** X9.  With [autodetect] on, a string comment, the [str] arguments
    [ss] and string-valued keywords, the comment becomes the old comment,
    the arguments joined by underscores and the keyword values joined by
    underscores, one after the other with nothing between the three. *)
Theorem autodetect_concatenates (comment : string) args (ss : list string)
    (kws : list (string * string)) :
  str_arguments args = map VStr ss ->
  detect (VBool true) (VStr comment) args
         (map (fun kt => (fst kt, VStr (snd kt))) kws)
  = Ok (VStr (comment ++ String.concat "_" ss
                      ++ String.concat "_" (map snd kws))).
Proof.
intros Hs. unfold detect. simpl. fold (str_arguments args).
rewrite Hs, join_strings. simpl.
rewrite detect_selects_every_keyword.
rewrite map_map. simpl.
rewrite <- (map_map snd VStr). rewrite join_strings. simpl.
now rewrite str_app_assoc.
Qed.

(** ** What a call does to the files (lines 120-128) *)

Section MoreFiles.
Context {S : Type}.
Implicit Type w : world S.

Lemma path_exists_frame w w' p :
  dirs w' = dirs w -> files w' = files w ->
  path_exists w' p = path_exists w p.
Proof. intros Hd Hf. unfold path_exists. now rewrite Hd, Hf. Qed.

Lemma validate_cachedir_frame (v : pyval) w w' :
  cwd w' = cwd w -> dirs w' = dirs w -> files w' = files w ->
  fst (validate_cachedir v w') = fst (validate_cachedir v w).
Proof.
intros Hc Hd Hf. rewrite !validate_cachedir_eq.
destruct (as_text v) as [s|]; [|reflexivity].
rewrite Hc, !(path_exists_frame w w' _ Hd Hf).
repeat (destruct (path_exists w _); [reflexivity|]). reflexivity.
Qed.

(** A derivation sees the working directory, the directories and the
    files, and nothing else of the world. *)
Lemma derive_frame c name args kwargs w w' :
  cwd w' = cwd w -> dirs w' = dirs w -> files w' = files w ->
  fst (derive c name args kwargs w') = fst (derive c name args kwargs w).
Proof.
intros Hc Hd Hf. unfold derive, bind, lift, ret.
destruct (resolve_cachedir c args kwargs) as [[cachedir kw]| |];
  try reflexivity.
destruct (negb (truthy cachedir)); [reflexivity|].
destruct (resolve_cache_comment c kw) as [cc kw1].
destruct (resolve_autodetect c kw1) as [ad kw2].
destruct (detect ad cc args kw2); try reflexivity.
pose proof (validate_cachedir_frame cachedir w w' Hc Hd Hf) as Hv.
destruct (validate_cachedir cachedir w) as [r1 w1].
destruct (validate_cachedir cachedir w') as [r2 w2].
simpl in Hv. subst r2. destruct r1; try reflexivity.
destruct (make_cachename name a); reflexivity.
Qed.

Lemma method_wrapper_writes (c : closure) (m : pyfunc S) args kwargs w :
  let w' := snd (method_wrapper c m args kwargs w) in
  cwd w' = cwd w /\ dirs w' = dirs w
  /\ (files w' = files w
      \/ exists path d, path_exists w path = false
                        /\ files w' = <[path := d]> (files w)).
Proof.
rewrite method_wrapper_derive. unfold bind.
pose proof (derive_world c (__name__ m) args kwargs w) as Hw.
destruct (derive c (__name__ m) args kwargs w) as [[p| |] w0];
  simpl in Hw; subst w0; simpl; auto.
destruct p as [kw|path kw]; simpl.
- unfold call_method. destruct (body m args kw (mstate w)). simpl. auto.
- destruct (path_exists w path) eqn:He.
  + rewrite load_or_compute_hit by exact He. unfold gzip_json_load.
    destruct (files w !! path) as [[doc| | |]|]; simpl; auto.
  + rewrite load_or_compute_miss by exact He.
    unfold bind, call_method, gzip_json_dump, ret. simpl.
    destruct (body m args kw (mstate w)) as [[r| |] s']; simpl; auto.
    destruct (can_create _ path); simpl; auto.
    destruct (json_dump r); simpl; repeat split; right; eauto.
Qed.

(** X10.  Whatever the call and however it ends, the working directory
    and the directories are as before, every file that existed is still
    there with the content it had, and at most one file is new, at a path
    where nothing existed. *)
Theorem files_only_grow (c : closure) (m : pyfunc S) args kwargs w :
  let w' := snd (method_wrapper c m args kwargs w) in
  cwd w' = cwd w /\ dirs w' = dirs w
  /\ (forall p x, files w !! p = Some x -> files w' !! p = Some x)
  /\ (files w' = files w
      \/ exists path d, path_exists w path = false
                        /\ files w' = <[path := d]> (files w)).
Proof.
destruct (method_wrapper_writes c m args kwargs w) as (Hc & Hd & Hf).
repeat split; try assumption.
intros p x Hp. destruct Hf as [-> | (path & d & He & ->)]; [exact Hp|].
rewrite lookup_insert_ne; [exact Hp|].
intros ->. unfold path_exists in He. now rewrite Hp in He.
Qed.


(** X12.  The method runs before the cache file is opened.  When the
    file cannot be created the call ends in [IOError] after the method
    has returned, nothing is stored, and the next call invokes the method
    again. *)
Theorem unwritable_path_recomputes (c : closure) (m : pyfunc S)
    args kwargs w path kw r s' :
  fst (derive c (__name__ m) args kwargs w) = Ok (Cached path kw) ->
  path_exists w path = false ->
  can_create w path = false ->
  body m args kw (mstate w) = (Ok r, s') ->
  let w1 := with_call (with_stdout w ("[cache] generating " ++ path))
                      (args, kw) s' in
  method_wrapper c m args kwargs w = (Raise IOError, w1)
  /\ files w1 = files w
  /\ calls (snd (method_wrapper c m args kwargs w1))
     = (calls w ++ [(args, kw); (args, kw)])%list.
Proof.
intros Hd Hmiss Hcreate Hbody w1. split; [|split; [reflexivity|]].
- rewrite (method_wrapper_cached _ _ _ _ _ _ _ Hd).
  rewrite load_or_compute_miss by exact Hmiss.
  unfold bind, call_method, gzip_json_dump, ret. simpl.
  rewrite Hbody. rewrite (can_create_frame w) by reflexivity.
  rewrite Hcreate. reflexivity.
- assert (Hd1 : fst (derive c (__name__ m) args kwargs w1)
                = Ok (Cached path kw))
    by (rewrite (derive_frame c _ args kwargs w w1); auto).
  rewrite (miss_calls c m args kwargs w1 path kw Hd1 Hmiss).
  simpl. now rewrite <- app_assoc.
Qed.

End MoreFiles.

(** ** Decoration time and call time (lines 9-11 and 60-91) *)

Section MoreOptions.
Context {S : Type}.
Implicit Type w : world S.



(** X14.  A comment bound at decoration time without a directory bound
    at decoration time has no effect: with [autodetect] off and no
    [cache_comment] keyword, the call behaves as under the decoration
    without the comment. *)
Theorem comment_without_directory_is_dropped
    (cachedir cache_comment autodetect : pyval) (m : pyfunc S)
    args kwargs w :
  truthy cachedir = false ->
  truthy autodetect = false ->
  dict_get kwargs "cache_comment" = None ->
  match dict_get kwargs "autodetect" with
  | Some v => truthy v = false
  | None => True
  end ->
  method_wrapper (Closure cachedir cache_comment autodetect) m args kwargs w
  = method_wrapper (Closure cachedir VNone autodetect) m args kwargs w.
Proof.
intros Hd Ha Hc Hk. unfold method_wrapper, bind, lift.
replace (resolve_cachedir (Closure cachedir cache_comment autodetect)
                          args kwargs)
  with (resolve_cachedir (Closure cachedir VNone autodetect) args kwargs)
  by reflexivity.
destruct (resolve_cachedir _ args kwargs) as [[dir kw0]| |] eqn:Hr;
  try reflexivity.
destruct (negb (truthy dir)); [reflexivity|].
assert (Hc0 : dict_get kw0 "cache_comment" = None)
  by (rewrite (resolve_cachedir_keywords _ _ _ _ _ _ Hr);
      [exact Hc|discriminate]).
assert (Hk0 : dict_get kw0 "autodetect" = dict_get kwargs "autodetect")
  by (apply (resolve_cachedir_keywords _ _ _ _ _ _ Hr); discriminate).
unfold resolve_cache_comment, resolve_autodetect. simpl. rewrite Ha. simpl.
rewrite (dict_pop_absent _ _ _ Hc0).
assert (Hoff : truthy (fst (dict_pop kw0 "autodetect" (VBool false)))
               = false).
{ unfold dict_pop. rewrite Hk0.
  destruct (dict_get kwargs "autodetect"); simpl; auto. }
destruct (truthy cache_comment); simpl;
  destruct (dict_pop kw0 "autodetect" (VBool false)) as [ad kw2];
  simpl in Hoff; rewrite !(detect_off ad _ _ _ Hoff);
  [|reflexivity].
unfold make_cachename. rewrite Hd. reflexivity.
Qed.

(** With the directory bound at decoration time, no comment bound at
    decoration time and [autodetect] off, a call-time comment is the
    comment of the name. *)
Lemma cached_with_comment (d cache_comment autodetect : pyval)
    name args kwargs w path kw comment :
  truthy d = true ->
  truthy cache_comment = false ->
  truthy autodetect = false ->
  dict_get kwargs "cache_comment" = Some (VStr comment) ->
  dict_get kwargs "autodetect" = None ->
  fst (derive (Closure d cache_comment autodetect) name args kwargs w)
  = Ok (Cached path kw) ->
  exists dir cachename,
    fst (validate_cachedir d w) = Ok dir
    /\ make_cachename name (VStr comment) = Ok cachename
    /\ path = path_join dir cachename
    /\ kw = dict_remove kwargs "cache_comment".
Proof.
intros Hd Hcc Had Hc Ha H. apply derive_cached in H
  as (cachedir & kw0 & c' & dir & cachename
      & Hres & _ & Hkw & Hdet & Hv & Hn & Hp).
unfold resolve_cachedir in Hres. simpl in Hres. rewrite Hd in Hres.
simpl in Hres. injection Hres as <- <-.
unfold resolve_cache_comment, resolve_autodetect in *. simpl in *.
rewrite Hcc, Had in Hkw, Hdet. simpl in Hkw, Hdet.
unfold dict_pop in Hkw, Hdet. rewrite Hc in Hkw, Hdet. simpl in Hkw, Hdet.
rewrite (dict_get_remove_ne kwargs "cache_comment" "autodetect")
  in Hkw, Hdet by discriminate.
rewrite Ha in Hkw, Hdet. simpl in Hkw, Hdet.
injection Hdet as <-. exists dir, cachename. auto.
Qed.

(** X5.  Take a method whose name has a character that is not
    punctuation, and a decoration that binds the directory, no comment
    and no [autodetect].  Two calls without an [autodetect] keyword that
    give different strings as [cache_comment] keyword derive different
    cache paths.  (With a comment bound at decoration time the keyword
    is not read, and the two calls share one file.) *)
Theorem comments_select_distinct_files (d cache_comment autodetect : pyval)
    (name : string) args kwargs1 kwargs2 w c1 c2 path1 path2 kw1 kw2 :
  truthy d = true ->
  truthy cache_comment = false ->
  truthy autodetect = false ->
  has_plain_char name = true ->
  dict_get kwargs1 "cache_comment" = Some (VStr c1) ->
  dict_get kwargs2 "cache_comment" = Some (VStr c2) ->
  dict_get kwargs1 "autodetect" = None ->
  dict_get kwargs2 "autodetect" = None ->
  fst (derive (Closure d cache_comment autodetect) name args kwargs1 w)
  = Ok (Cached path1 kw1) ->
  fst (derive (Closure d cache_comment autodetect) name args kwargs2 w)
  = Ok (Cached path2 kw2) ->
  c1 <> c2 ->
  path1 <> path2.
Proof.
intros Hd Hcc Had Hp Hc1 Hc2 Ha1 Ha2 H1 H2 Hne Heq.
destruct (cached_with_comment d cache_comment autodetect name args kwargs1
            w path1 kw1 c1 Hd Hcc Had Hc1 Ha1 H1)
  as (dir1 & cn1 & Hv1 & Hn1 & -> & _).
destruct (cached_with_comment d cache_comment autodetect name args kwargs2
            w path2 kw2 c2 Hd Hcc Had Hc2 Ha2 H2)
  as (dir2 & cn2 & Hv2 & Hn2 & -> & _).
assert (dir2 = dir1) as -> by congruence.
destruct (make_cachename_shape _ _ _ Hn1) as [Hs1 _].
destruct (make_cachename_shape _ _ _ Hn2) as [Hs2 _].
apply (path_join_inj dir1 cn1 cn2 Hs1 Hs2) in Heq. subst cn2.
apply Hne. apply (make_cachename_injective name c1 c2 Hp).
congruence.
Qed.

End MoreOptions.

(** ** The further properties on sample calls *)

Section OnMoreSamples.
Import Sample More.

Lemma bypass_plain_argument_witness :
  let kwargs := [("verbose", VBool true)] in
  let out := method_wrapper undecorated listing [VStr "x"] kwargs fresh in
  out = call_method listing [VStr "x"] (dict_remove kwargs "cachedir") fresh
  /\ fst out
     = fst (body listing [VStr "x"] (dict_remove kwargs "cachedir")
                 (mstate fresh))
  /\ files (snd out) = files fresh /\ dirs (snd out) = dirs fresh
  /\ stdout (snd out) = stdout fresh.
Proof.
exact (bypass_plain_argument undecorated listing (VStr "x") []
         [("verbose", VBool true)] fresh eq_refl eq_refl eq_refl).
Defined.

Lemma configuration_failure_has_no_effect_witness :
  method_wrapper undecorated listing [] [("cachedir", VStr "/c")] fresh
  = (Raise IndexError, fresh).
Proof.
exact (configuration_failure_has_no_effect undecorated listing []
         [("cachedir", VStr "/c")] fresh IndexError eq_refl).
Defined.

Lemma cache_path_inside_directory_witness :
  starts_with_slash "call__.cache.gz" = false
  /\ path_join "/c" "call__.cache.gz"
     = (if str_empty "/c" || ends_with_slash "/c"
        then "/c" ++ "call__.cache.gz"
        else "/c" ++ "/" ++ "call__.cache.gz").
Proof.
exact (cache_path_inside_directory "/c" "__call__" VNone "call__.cache.gz"
         eq_refl).
Defined.

(** [listing('x', cache_comment='a')] and [listing('x', cache_comment='b')]
    under [@simple_caching(cachedir='/c', cache_comment='')]. *)
Lemma comments_select_distinct_files_witness :
  let c := Closure (VStr "/c") (VStr "") (VBool false) in
  fst (derive c "listing" [VStr "x"] [("cache_comment", VStr "a")] fresh)
  = Ok (Cached "/c/listing_a.cache.gz" [])
  /\ fst (derive c "listing" [VStr "x"] [("cache_comment", VStr "b")] fresh)
     = Ok (Cached "/c/listing_b.cache.gz" [])
  /\ "/c/listing_a.cache.gz" <> "/c/listing_b.cache.gz".
Proof.
split; [reflexivity|]. split; [reflexivity|].
apply (comments_select_distinct_files (VStr "/c") (VStr "") (VBool false)
         "listing" [VStr "x"]
         [("cache_comment", VStr "a")] [("cache_comment", VStr "b")]
         fresh "a" "b" "/c/listing_a.cache.gz" "/c/listing_b.cache.gz"
         [] []);
  [reflexivity | reflexivity | reflexivity | reflexivity | reflexivity
  | reflexivity | reflexivity | reflexivity | reflexivity | reflexivity
  | discriminate].
Defined.

Lemma key_ignores_other_arguments_witness :
  fst (derive autodetecting "listing" [VStr "x"; VInt 1] [] fresh)
  = fst (derive autodetecting "listing" [VStr "x"; VInt 2] [] fresh).
Proof.
exact (key_ignores_other_arguments autodetecting "listing"
         [VStr "x"; VInt 1] [VStr "x"; VInt 2] [] fresh eq_refl eq_refl).
Defined.

Lemma cache_shared_across_arguments_witness :
  method_wrapper in_c listing [VStr "y"; VInt 7] [] after_listing
  = (Ok (decode listing_doc), after_listing).
Proof.
exact (cache_shared_across_arguments in_c listing [VStr "x"] []
         after_listing "/c/listing.cache.gz" [] listing_doc
         eq_refl eq_refl eq_refl eq_refl [VStr "y"; VInt 7]).
Defined.

Lemma hit_never_recomputes_witness :
  snd (method_wrapper in_c handle [VStr "x"] [] after_handle) = after_handle
  /\ forall v, fst (method_wrapper in_c handle [VStr "x"] [] after_handle)
               = Ok v ->
               exists doc, files after_handle !! "/c/handle.cache.gz"
                           = Some (GzJson doc)
                           /\ v = decode doc.
Proof.
exact (hit_never_recomputes in_c handle [VStr "x"] [] after_handle
         "/c/handle.cache.gz" [] eq_refl eq_refl).
Defined.

Lemma autodetect_concatenates_witness :
  detect (VBool true) (VStr "v") [VStr "a"; VInt 3; VStr "b"]
         (map (fun kt => (fst kt, VStr (snd kt))) [("k", "z"); ("l", "y")])
  = Ok (VStr ("v" ++ String.concat "_" ["a"; "b"]
                  ++ String.concat "_" (map snd [("k", "z"); ("l", "y")]))).
Proof.
exact (autodetect_concatenates "v" [VStr "a"; VInt 3; VStr "b"] ["a"; "b"]
         [("k", "z"); ("l", "y")] eq_refl).
Defined.


Lemma unwritable_path_recomputes_witness :
  method_wrapper in_f listing [VStr "x"] [] f_is_a_file
  = (Raise IOError, after_unwritable)
  /\ files after_unwritable = files f_is_a_file
  /\ calls (snd (method_wrapper in_f listing [VStr "x"] [] after_unwritable))
     = [([VStr "x"], []); ([VStr "x"], [])].
Proof.
exact (unwritable_path_recomputes in_f listing [VStr "x"] [] f_is_a_file
         "/f/listing.cache.gz" [] (listing_result 0) 1%nat
         eq_refl eq_refl eq_refl eq_refl).
Defined.


Lemma comment_without_directory_is_dropped_witness :
  method_wrapper comment_v1 listing [VStr "x"] [("cachedir", VStr "/c")]
                 fresh
  = method_wrapper undecorated listing [VStr "x"] [("cachedir", VStr "/c")]
                   fresh.
Proof.
exact (comment_without_directory_is_dropped VNone (VStr "v1") (VBool false)
         listing [VStr "x"] [("cachedir", VStr "/c")] fresh
         eq_refl eq_refl eq_refl I).
Defined.

(** [listing(verbose=True)] under
    [@simple_caching(cachedir=u'/c', cache_comment='', autodetect=0)]. *)
Lemma derive_decorated_witness :
  exists cachename,
    make_cachename "listing" (VStr "") = Ok cachename
    /\ fst (derive (Closure (VUnicode "/c") (VStr "") (VInt 0))
                   "listing" [] [("verbose", VBool true)] fresh)
       = Ok (Cached (path_join "/c" cachename) [("verbose", VBool true)]).
Proof.
exact (derive_decorated (VUnicode "/c") (VStr "") (VInt 0) "/c" "listing" []
         [("verbose", VBool true)] fresh
         eq_refl eq_refl eq_refl eq_refl eq_refl eq_refl eq_refl).
Defined.


End OnMoreSamples.
